(** * basic_video_processing: a shallow embedding and its properties

    The program reads a video frame by frame and writes three derived
    videos (grayscale, black-and-white, sobel).  Every pixel transform is
    one call into OpenCV, so the development has two layers:

    - [Module cv2]: the OpenCV entry points the program calls, on 8-bit
      matrices, written after OpenCV's documented integer behaviour;
    - the program itself: [get_video_parameters], the three
      [convert_video_to_*] procedures and [main], transcribed statement
      by statement in a small state-and-exception monad over the local
      variables of one call. *)

From Stdlib Require Import ZArith QArith Lia.
From stdpp Require Import base gmap strings list.

Local Open Scope Z_scope.

(** ** Python values, exceptions and results *)

(** The two kinds of number the program stores in its dictionaries.  A
    [PyFloat] is a finite double, that is a rational; the floats that
    are not finite are in [pyfloat] below. *)
Inductive pyval :=
| PyInt (z : Z)
| PyFloat (q : Q).

Inductive exn :=
| KeyError (key : string)
| TypeError (what : string)
| UnboundLocalError (name : string)
| cv2_error (what : string)
| ValueError (what : string)
| OverflowError (what : string).

(** How a computation ends: with a value, with an exception, or (for the
    bounded loop below only) with its iteration budget used up. *)
Inductive outcome (A : Type) :=
| Ok (a : A)
| Raise (e : exn)
| OutOfFuel.
Arguments Ok {A} a.
Arguments Raise {A} e.
Arguments OutOfFuel {A}.

#[export] Instance outcome_ret : MRet outcome := fun A a => Ok a.
#[export] Instance outcome_bind : MBind outcome := fun A B k r =>
  match r with
  | Ok a => k a
  | Raise e => Raise e
  | OutOfFuel => OutOfFuel
  end.

(** [int(x)] on a finite float truncates toward zero. *)
Definition int (x : Q) : Z := Z.quot (Qnum x) (Z.pos (Qden x)).

(** A Python float in full: a finite double, an infinity or a NaN. *)
Inductive pyfloat :=
| Finite (q : Q)
| Infinity (negative : bool)
| NaN.

(** [int(x)] on any float: the non-finite ones are refused. *)
Definition py_int (x : pyfloat) : outcome Z :=
  match x with
  | Finite q => Ok (int q)
  | Infinity _ => Raise (OverflowError "cannot convert float infinity to integer")
  | NaN => Raise (ValueError "cannot convert float NaN to integer")
  end.

(** A number handed to a C++ [double] parameter. *)
Definition as_double (v : pyval) : Q :=
  match v with
  | PyInt z => inject_Z z
  | PyFloat q => q
  end.

(** A number handed to a C++ [int] parameter: a float is refused.  The
    integer is taken to fit the C [int]; the range check of the binding
    is not part of the model. *)
Definition as_int (what : string) (v : pyval) : outcome Z :=
  match v with
  | PyInt z => Ok z
  | PyFloat _ => Raise (TypeError what)
  end.

(** [d[key]] *)
Definition getitem (d : gmap string pyval) (key : string) : outcome pyval :=
  match d !! key with
  | Some v => Ok v
  | None => Raise (KeyError key)
  end.

(** ** The OpenCV entry points *)

Module cv2.

(** *** Matrices *)

(** An 8-bit image, row by row: one value per pixel ([CV_8UC1]) or a
    (blue, green, red) triple per pixel ([CV_8UC3]). *)
Inductive Mat :=
| Mat8UC1 (px : list (list Z))
| Mat8UC3 (px : list (list (Z * Z * Z))).

Definition rows (m : Mat) : nat :=
  match m with
  | Mat8UC1 px => length px
  | Mat8UC3 px => length px
  end.

Definition cols (m : Mat) : nat :=
  match m with
  | Mat8UC1 px => length (hd [] px)
  | Mat8UC3 px => length (hd [] px)
  end.

Definition channels (m : Mat) : nat :=
  match m with
  | Mat8UC1 _ => 1
  | Mat8UC3 _ => 3
  end.

Definition empty (m : Mat) : bool :=
  (rows m =? 0)%nat || (cols m =? 0)%nat.

(** [saturate_cast<uchar>] *)
Definition saturate_cast (v : Z) : Z := Z.max 0 (Z.min 255 v).

(** A plain C cast to [uchar]. *)
Definition uchar (v : Z) : Z := Z.land v 255.

(** *** cvtColor *)

Inductive ColorConversionCodes :=
| COLOR_BGR2GRAY
| COLOR_GRAY2RGB.

(** Fixed-point luminance weights, 15 fractional bits. *)
Definition gray_shift : Z := 15.
Definition RY15 : Z := 9798.
Definition GY15 : Z := 19235.
Definition BY15 : Z := 3735.

(** [CV_DESCALE(x, n)] *)
Definition CV_DESCALE (x n : Z) : Z := Z.shiftr (x + Z.shiftl 1 (n - 1)) n.

Definition RGB2Gray (p : Z * Z * Z) : Z :=
  let '(b, g, r) := p in
  uchar (CV_DESCALE (b * BY15 + g * GY15 + r * RY15) gray_shift).

Definition Gray2RGB (v : Z) : Z * Z * Z := (v, v, v).

Definition cvtColor (src : Mat) (code : ColorConversionCodes) : outcome Mat :=
  if empty src then Raise (cv2_error "(-215:Assertion failed) !_src.empty()")
  else
    match code, src with
    | COLOR_BGR2GRAY, Mat8UC3 px => Ok (Mat8UC1 (map (map RGB2Gray) px))
    | COLOR_GRAY2RGB, Mat8UC1 px => Ok (Mat8UC3 (map (map Gray2RGB) px))
    | _, _ => Raise (cv2_error "Invalid number of channels in input image")
    end.

(** *** threshold *)

Definition THRESH_BINARY : Z := 0.
Definition THRESH_BINARY_INV : Z := 1.
Definition THRESH_TRUNC : Z := 2.
Definition THRESH_TOZERO : Z := 3.
Definition THRESH_TOZERO_INV : Z := 4.
Definition THRESH_MASK : Z := 7.
Definition THRESH_OTSU : Z := 8.
Definition THRESH_TRIANGLE : Z := 16.

(** One pixel of [thresh_8u]; [None] for a type outside the five. *)
Definition thresh_8u (type thresh maxval v : Z) : option Z :=
  if type =? THRESH_BINARY then Some (if thresh <? v then maxval else 0)
  else if type =? THRESH_BINARY_INV then Some (if thresh <? v then 0 else maxval)
  else if type =? THRESH_TRUNC then Some (if thresh <? v then saturate_cast thresh else v)
  else if type =? THRESH_TOZERO then Some (if thresh <? v then v else 0)
  else if type =? THRESH_TOZERO_INV then Some (if thresh <? v then 0 else v)
  else None.

Section Threshold.

(** OpenCV's Otsu search ([getThreshVal_Otsu_8u]) is carried out in
    double precision; the development is stated for whichever
    threshold it returns for a single-channel image. *)
Variable getThreshVal_Otsu_8u : list (list Z) -> Z.

(** [retval, dst = cv2.threshold(src, thresh, maxval, type)] on an
    8-bit source with integral [thresh] and [maxval].  The triangle
    selector (flag 16), which this program never passes, is outside the
    model and answered with an error. *)
Definition threshold (src : Mat) (thresh maxval type : Z)
  : outcome (Z * Mat) :=
  let automatic := Z.land type (Z.lor THRESH_OTSU THRESH_TRIANGLE) in
  let type := Z.land type THRESH_MASK in
  let imaxval := saturate_cast maxval in
  if empty src then Raise (cv2_error "(-215:Assertion failed) !_src.empty()")
  else if negb ((0 <=? type) && (type <=? THRESH_TOZERO_INV))
  then Raise (cv2_error "Unknown threshold type")
  else
    let per_pixel t v := default 0 (thresh_8u type t imaxval v) in
    if automatic =? 0 then
      match src with
      | Mat8UC1 px => Ok (thresh, Mat8UC1 (map (map (per_pixel thresh)) px))
      | Mat8UC3 px =>
          Ok (thresh,
              Mat8UC3 (map (map (fun '(b, g, r) =>
                (per_pixel thresh b, per_pixel thresh g, per_pixel thresh r))) px))
      end
    else if automatic =? THRESH_OTSU then
      match src with
      | Mat8UC1 px =>
          let t := getThreshVal_Otsu_8u px in
          Ok (t, Mat8UC1 (map (map (per_pixel t)) px))
      | Mat8UC3 _ =>
          Raise (cv2_error "(-215:Assertion failed) src.type() == CV_8UC1")
      end
    else Raise (cv2_error "automatic threshold selector outside the model").

End Threshold.

(** The same search in exact arithmetic, as one concrete selector: among
    the levels that split the histogram into two non-empty classes, the
    first that maximises the between-class variance
    [(m1*n2 - m2*n1)^2 / (n1*n2)] (up to the constant factor [1/N^2]);
    level 0 when no level does. *)
Definition calcHist (px : list (list Z)) : list Z :=
  map (fun i => Z.of_nat (count_occ Z.eq_dec (concat px) (Z.of_nat i)))
      (seq 0 256).

Record OtsuSearch := {
  n1 : Z;          (* pixels at levels <= i *)
  m1 : Z;          (* their sum of levels *)
  max_sigma_num : Z;
  max_sigma_den : Z;
  max_val : Z
}.

Definition otsu_level (N total : Z) (st : OtsuSearch) (i h_i : Z) : OtsuSearch :=
  let q1 := n1 st + h_i in
  let s1 := m1 st + i * h_i in
  let q2 := N - q1 in
  if (q1 =? 0) || (q2 =? 0) then
    {| n1 := q1; m1 := s1; max_sigma_num := max_sigma_num st;
       max_sigma_den := max_sigma_den st; max_val := max_val st |}
  else
    let d := s1 * q2 - (total - s1) * q1 in
    let num := d * d in
    let den := q1 * q2 in
    if max_sigma_num st * den <? num * max_sigma_den st then
      {| n1 := q1; m1 := s1; max_sigma_num := num; max_sigma_den := den;
         max_val := i |}
    else
      {| n1 := q1; m1 := s1; max_sigma_num := max_sigma_num st;
         max_sigma_den := max_sigma_den st; max_val := max_val st |}.

Definition getThreshVal_Otsu_exact (px : list (list Z)) : Z :=
  let h := calcHist px in
  let N := foldr Z.add 0 h in
  let total := foldr Z.add 0 (imap (fun i h_i => Z.of_nat i * h_i) h) in
  max_val
    (foldl (fun st ih => otsu_level N total st (Z.of_nat (fst ih)) (snd ih))
       {| n1 := 0; m1 := 0; max_sigma_num := 0; max_sigma_den := 1;
          max_val := 0 |}
       (imap (fun i h_i => (i, h_i)) h)).

(** *** Sobel *)

(** [borderInterpolate(p, len, BORDER_REFLECT_101)]: the reflection loop
    of OpenCV, with an iteration budget. *)
Fixpoint reflect101 (fuel : nat) (p len : Z) : Z :=
  if (0 <=? p) && (p <? len) then p
  else
    match fuel with
    | O => 0
    | S fuel' =>
        reflect101 fuel'
          (if p <? 0 then - p - 1 + 1 else len - 1 - (p - len) - 1) len
    end.

Definition borderInterpolate (p len : Z) : Z :=
  if (0 <=? p) && (p <? len) then p
  else if len =? 1 then 0
  else reflect101 (Z.to_nat (Z.abs p + len)) p len.

(** The two inner loops of [getSobelKernels]: one smoothing pass
    ([ker[j] + ker[j-1]]) and one differencing pass
    ([ker[j-1] - ker[j]]). *)
Fixpoint smooth_pass (prev : Z) (ker : list Z) : list Z :=
  match ker with
  | [] => []
  | k :: rest => (k + prev) :: smooth_pass k rest
  end.

Fixpoint deriv_pass (prev : Z) (ker : list Z) : list Z :=
  match ker with
  | [] => []
  | k :: rest => (prev - k) :: deriv_pass k rest
  end.

(** The 1-D kernel of derivative order [order] and aperture [ksize]. *)
Definition getSobelKernel (order ksize : nat) : list Z :=
  let ksize := if (ksize =? 1)%nat && (0 <? order)%nat then 3%nat else ksize in
  Nat.iter order (deriv_pass 0)
    (Nat.iter (ksize - order - 1) (smooth_pass 0) (1 :: repeat 0 (ksize - 1))).

(** One output sample of a 1-D correlation anchored at the kernel centre;
    [sample] reads the source at a possibly out-of-range position. *)
Definition tap (k : list Z) (sample : Z -> Z) (x : Z) : Z :=
  let anchor := Z.of_nat (length k / 2) in
  foldr Z.add 0 (imap (fun j kj => kj * sample (x + Z.of_nat j - anchor)) k).

Definition rowFilter (kx : list Z) (row : list Z) : list Z :=
  let w := Z.of_nat (length row) in
  map (fun x => tap kx (fun p => nth (Z.to_nat (borderInterpolate p w)) row 0)
                  (Z.of_nat x))
      (seq 0 (length row)).

Definition columnFilter (ky : list Z) (img : list (list Z)) : list (list Z) :=
  let h := Z.of_nat (length img) in
  map (fun y =>
         map (fun x => tap ky (fun p =>
                         nth x (nth (Z.to_nat (borderInterpolate p h)) img []) 0)
                         (Z.of_nat y))
             (seq 0 (length (hd [] img))))
      (seq 0 (length img)).

(** [sepFilter2D] into an 8-bit destination: rows, then columns, then
    the saturating store. *)
Definition sepFilter2D (kx ky : list Z) (img : list (list Z)) : list (list Z) :=
  map (map saturate_cast) (columnFilter ky (map (rowFilter kx) img)).

Definition split (px : list (list (Z * Z * Z))) (c : nat) : list (list Z) :=
  map (map (fun '(b, g, r) =>
    match c with O => b | S O => g | _ => r end)) px.

Definition merge (b g r : list (list Z)) : list (list (Z * Z * Z)) :=
  zip_with (fun rb gr => zip_with (fun vb vgr => (vb, fst vgr, snd vgr)) rb gr)
    b (zip_with (fun rg rr => zip rg rr) g r).

(** [cv2.Sobel(src, ddepth, dx, dy, ksize)] with the default scale, delta
    and border, for an 8-bit destination ([ddepth] -1 or [CV_8U]); wider
    destinations have no counterpart in [Mat]. *)
Definition Sobel (src : Mat) (ddepth dx dy ksize : Z) : outcome Mat :=
  if empty src then Raise (cv2_error "(-215:Assertion failed) !_src.empty()")
  else if negb ((ddepth =? -1) || (ddepth =? 0))
  then Raise (cv2_error "destination depth outside the model")
  else if Z.even ksize || (31 <? ksize) || (ksize <? 1)
  then Raise (cv2_error "The kernel size must be odd and not larger than 31")
  else if negb ((0 <=? dx) && (0 <=? dy) && (0 <? dx + dy))
  then Raise (cv2_error "(-215:Assertion failed) dx >= 0 && dy >= 0 && dx+dy > 0")
  else
    let kx := getSobelKernel (Z.to_nat dx) (Z.to_nat ksize) in
    let ky := getSobelKernel (Z.to_nat dy) (Z.to_nat ksize) in
    if negb ((dx <? Z.of_nat (length kx)) && (dy <? Z.of_nat (length ky)))
    then Raise (cv2_error "(-215:Assertion failed) ksize > order")
    else
      match src with
      | Mat8UC1 px => Ok (Mat8UC1 (sepFilter2D kx ky px))
      | Mat8UC3 px =>
          Ok (Mat8UC3 (merge (sepFilter2D kx ky (split px 0))
                             (sepFilter2D kx ky (split px 1))
                             (sepFilter2D kx ky (split px 2))))
      end.

(** *** Video input and output *)

Inductive VideoCaptureProperties :=
| CAP_PROP_FRAME_WIDTH
| CAP_PROP_FRAME_HEIGHT
| CAP_PROP_FPS
| CAP_PROP_FOURCC
| CAP_PROP_FRAME_COUNT.

(** A video that can be opened: what the backend reports about it, and
    what decoding it yields, one entry per frame in presentation order
    ([None] for a frame that fails to decode). *)
Record VideoFile := {
  file_fourcc : Q;
  file_fps : Q;
  file_width : Q;
  file_height : Q;
  file_frame_count : Q;
  file_frames : list (option Mat)
}.

Record VideoCapture := {
  vc_source : option VideoFile;
  vc_pending : list (option Mat);
  vc_released : bool
}.

(** [cv2.VideoCapture(filename)]: never raises; a file that cannot be
    opened gives a capture that is not opened. *)
Definition VideoCapture_new (disk : gmap string VideoFile) (filename : string)
  : VideoCapture :=
  match disk !! filename with
  | Some f => {| vc_source := Some f; vc_pending := file_frames f;
                 vc_released := false |}
  | None => {| vc_source := None; vc_pending := []; vc_released := false |}
  end.

Definition VideoCapture_isOpened (c : VideoCapture) : bool :=
  match vc_source c with
  | Some _ => negb (vc_released c)
  | None => false
  end.

(** [capture.get(prop)]: 0 when the capture is not opened. *)
Definition VideoCapture_get (c : VideoCapture) (prop : VideoCaptureProperties) : Q :=
  match vc_source c with
  | Some f =>
      if vc_released c then 0%Q
      else
        match prop with
        | CAP_PROP_FRAME_WIDTH => file_width f
        | CAP_PROP_FRAME_HEIGHT => file_height f
        | CAP_PROP_FPS => file_fps f
        | CAP_PROP_FOURCC => file_fourcc f
        | CAP_PROP_FRAME_COUNT => file_frame_count f
        end
  | None => 0%Q
  end.

(** [capture.read()]: the pair (success, image) and the capture advanced
    by one frame.  Success is "the decoded image is not empty"; the end
    of the stream, a frame that fails to decode and a capture that is not
    opened all answer [(False, None)]. *)
Definition VideoCapture_read (c : VideoCapture)
  : (bool * option Mat) * VideoCapture :=
  if VideoCapture_isOpened c then
    match vc_pending c with
    | [] => ((false, None), c)
    | frame :: rest =>
        let c' := {| vc_source := vc_source c; vc_pending := rest;
                     vc_released := vc_released c |} in
        match frame with
        | Some m => if empty m then ((false, None), c') else ((true, Some m), c')
        | None => ((false, None), c')
        end
    end
  else ((false, None), c).

Definition VideoCapture_release (c : VideoCapture) : VideoCapture :=
  {| vc_source := vc_source c; vc_pending := vc_pending c; vc_released := true |}.

(** A writer: the arguments it was opened with and the frames handed to
    [write], in call order. *)
Record VideoWriter := {
  vw_filename : string;
  vw_fourcc : Z;
  vw_fps : Q;
  vw_frameSize : Z * Z;
  vw_isColor : bool;
  vw_frames : list Mat;
  vw_released : bool
}.

(** [cv2.VideoWriter(filename, fourcc, fps, frameSize, isColor)] *)
Definition VideoWriter_new (filename : string) (fourcc fps : pyval)
    (frameSize : pyval * pyval) (isColor : bool) : outcome VideoWriter :=
  c ← as_int "fourcc" fourcc;
  w ← as_int "frameSize" (fst frameSize);
  h ← as_int "frameSize" (snd frameSize);
  mret {| vw_filename := filename; vw_fourcc := c; vw_fps := as_double fps;
          vw_frameSize := (w, h); vw_isColor := isColor; vw_frames := [];
          vw_released := false |}.

Definition VideoWriter_write (w : VideoWriter) (frame : Mat) : VideoWriter :=
  if vw_released w then w
  else {| vw_filename := vw_filename w; vw_fourcc := vw_fourcc w;
          vw_fps := vw_fps w; vw_frameSize := vw_frameSize w;
          vw_isColor := vw_isColor w; vw_frames := vw_frames w ++ [frame];
          vw_released := false |}.

Definition VideoWriter_release (w : VideoWriter) : VideoWriter :=
  {| vw_filename := vw_filename w; vw_fourcc := vw_fourcc w;
     vw_fps := vw_fps w; vw_frameSize := vw_frameSize w;
     vw_isColor := vw_isColor w; vw_frames := vw_frames w;
     vw_released := true |}.

(** A Python value passed where an array is expected: [None] arrives as
    an empty matrix. *)
Definition as_mat (v : option Mat) : Mat := default (Mat8UC1 []) v.

End cv2.

(** ** Statements over the local variables of one call *)

(** State-and-exception computations over a state [S]. *)
Definition ST (S A : Type) : Type := S -> outcome A * S.

#[export] Instance ST_ret {S} : MRet (ST S) := fun A a s => (Ok a, s).
#[export] Instance ST_bind {S} : MBind (ST S) := fun A B k m s =>
  match m s with
  | (Ok a, s') => k a s'
  | (Raise e, s') => (Raise e, s')
  | (OutOfFuel, s') => (OutOfFuel, s')
  end.

(** The result of a library call that may raise. *)
Definition call {S A} (r : outcome A) : ST S A := fun s => (r, s).

(** The variables of the three procedures that outlive one loop
    iteration; [None] while a name is unbound. *)
Record Locals := {
  capture : option cv2.VideoCapture;
  new_video : option cv2.VideoWriter;
  success : bool;
  image : option cv2.Mat;
  count : Z
}.

Abbreviation M := (ST Locals).

Definition unbound : Locals :=
  {| capture := None; new_video := None; success := false; image := None;
     count := 0 |}.

(** [capture = c] *)
Definition capture_assign (c : cv2.VideoCapture) : M unit := fun s =>
  (Ok tt, {| capture := Some c; new_video := new_video s;
             success := success s; image := image s; count := count s |}).

(** the object bound to [capture] *)
Definition capture_var : M cv2.VideoCapture := fun s =>
  match capture s with
  | Some c => (Ok c, s)
  | None => (Raise (UnboundLocalError "capture"), s)
  end.

(** [success, image = capture.read()] *)
Definition capture_read : M unit := fun s =>
  match capture s with
  | Some c =>
      let '((ok, frame), c') := cv2.VideoCapture_read c in
      (Ok tt, {| capture := Some c'; new_video := new_video s;
                 success := ok; image := frame; count := count s |})
  | None => (Raise (UnboundLocalError "capture"), s)
  end.

(** [capture.release()] *)
Definition capture_release : M unit := fun s =>
  match capture s with
  | Some c =>
      (Ok tt, {| capture := Some (cv2.VideoCapture_release c);
                 new_video := new_video s; success := success s;
                 image := image s; count := count s |})
  | None => (Raise (UnboundLocalError "capture"), s)
  end.

(** [new_video = w] *)
Definition new_video_assign (w : cv2.VideoWriter) : M unit := fun s =>
  (Ok tt, {| capture := capture s; new_video := Some w;
             success := success s; image := image s; count := count s |}).

(** [new_video.write(frame)] *)
Definition new_video_write (frame : cv2.Mat) : M unit := fun s =>
  match new_video s with
  | Some w =>
      (Ok tt, {| capture := capture s;
                 new_video := Some (cv2.VideoWriter_write w frame);
                 success := success s; image := image s; count := count s |})
  | None => (Raise (UnboundLocalError "new_video"), s)
  end.

(** [new_video.release()] *)
Definition new_video_release : M unit := fun s =>
  match new_video s with
  | Some w =>
      (Ok tt, {| capture := capture s;
                 new_video := Some (cv2.VideoWriter_release w);
                 success := success s; image := image s; count := count s |})
  | None => (Raise (UnboundLocalError "new_video"), s)
  end.

(** the value bound to [image] *)
Definition image_var : M (option cv2.Mat) := fun s => (Ok (image s), s).

(** [count = z] *)
Definition count_assign (z : Z) : M unit := fun s =>
  (Ok tt, {| capture := capture s; new_video := new_video s;
             success := success s; image := image s; count := z |}).

(** [count += 1] *)
Definition count_incr : M unit := fun s =>
  (Ok tt, {| capture := capture s; new_video := new_video s;
             success := success s; image := image s; count := count s + 1 |}).

(** [cv2.destroyAllWindows()]: the program opens no window. *)
Definition destroyAllWindows : M unit := mret tt.

(** [while cond: body], with an iteration budget. *)
Fixpoint while_fuel (fuel : nat) (cond : Locals -> bool) (body : M unit)
  : M unit := fun s =>
  if cond s then
    match fuel with
    | O => (OutOfFuel, s)
    | S fuel' =>
        match body s with
        | (Ok _, s') => while_fuel fuel' cond body s'
        | (Raise e, s') => (Raise e, s')
        | (OutOfFuel, s') => (OutOfFuel, s')
        end
    end
  else (Ok tt, s).

(** Every iteration of the three loops ends with a read, and a read that
    succeeds takes a frame off the capture: one iteration more than the
    frames still pending is a budget the loops cannot use up (see
    [while_success_total] below). *)
Definition reads_left (s : Locals) : nat :=
  match capture s with
  | Some c => S (length (cv2.vc_pending c))
  | None => 0
  end.

(** [while success: body] *)
Definition while_success (body : M unit) : M unit := fun s =>
  while_fuel (reads_left s) success body s.

(** ** The program *)

Definition ID1 : string := "203135058".
Definition ID2 : string := "203764170".

Definition INPUT_VIDEO : string := "atrium.avi".
Definition GRAYSCALE_VIDEO : string :=
  ID1 +:+ "_" +:+ ID2 +:+ "_atrium_grayscale.avi".
Definition BLACK_AND_WHITE_VIDEO : string :=
  ID1 +:+ "_" +:+ ID2 +:+ "_atrium_black_and_white.avi".
Definition SOBEL_VIDEO : string :=
  ID1 +:+ "_" +:+ ID2 +:+ "_atrium_sobel.avi".

Definition get_video_parameters (capture : cv2.VideoCapture)
  : gmap string pyval :=
  let fourcc := int (cv2.VideoCapture_get capture cv2.CAP_PROP_FOURCC) in
  let fps := int (cv2.VideoCapture_get capture cv2.CAP_PROP_FPS) in
  let height := int (cv2.VideoCapture_get capture cv2.CAP_PROP_FRAME_HEIGHT) in
  let width := int (cv2.VideoCapture_get capture cv2.CAP_PROP_FRAME_WIDTH) in
  let parameters : gmap string pyval :=
    {[ "fourcc" := PyInt fourcc; "fps" := PyInt fps;
       "height" := PyInt height; "width" := PyInt width ]} in
  parameters.

(** [get_video_parameters] handed any object with a [get] method, whose
    answers may be any float.  On a capture of [cv2], whose answers are
    finite, it is [get_video_parameters] above. *)
Definition get_video_parameters_any
    (get : cv2.VideoCaptureProperties → pyfloat) : outcome (gmap string pyval) :=
  fourcc ← py_int (get cv2.CAP_PROP_FOURCC);
  fps ← py_int (get cv2.CAP_PROP_FPS);
  height ← py_int (get cv2.CAP_PROP_FRAME_HEIGHT);
  width ← py_int (get cv2.CAP_PROP_FRAME_WIDTH);
  let parameters : gmap string pyval :=
    {[ "fourcc" := PyInt fourcc; "fps" := PyInt fps;
       "height" := PyInt height; "width" := PyInt width ]} in
  mret parameters.

Section Program.

(** The threshold OpenCV's Otsu search returns for a grey image. *)
Variable getThreshVal_Otsu_8u : list (list Z) -> Z.

(** The videos that can be opened for reading, by path. *)
Variable disk : gmap string cv2.VideoFile.

Definition convert_video_to_grayscale
    (input_video_path output_video_path : string) : M unit :=
  (* read video *)
  capture_assign (cv2.VideoCapture_new disk input_video_path);;
  (* print get output - might need to do something else here *)
  capture ← capture_var;
  let capture_info := get_video_parameters capture in
  (* open a new video file *)
  fourcc ← call (getitem capture_info "fourcc");
  fps ← call (getitem capture_info "fps");
  width ← call (getitem capture_info "width");
  height ← call (getitem capture_info "height");
  new_video ← call (cv2.VideoWriter_new output_video_path fourcc fps
                      (width, height) false);
  new_video_assign new_video;;
  (* read video frames and convert to grayscale *)
  capture_read;;
  count_assign 0;;
  while_success (
    image ← image_var;
    grayscale_image ← call (cv2.cvtColor (cv2.as_mat image) cv2.COLOR_BGR2GRAY);
    new_video_write grayscale_image;;
    capture_read;;
    count_incr);;
  (* release the video and close *)
  capture_release;;
  new_video_release;;
  destroyAllWindows.

Definition convert_video_to_black_and_white
    (input_video_path output_video_path : string) : M unit :=
  (* read video *)
  capture_assign (cv2.VideoCapture_new disk input_video_path);;
  (* print get output - might need to do something else here *)
  capture ← capture_var;
  let capture_info : gmap string pyval :=
    {[ "framecount" := PyFloat (cv2.VideoCapture_get capture cv2.CAP_PROP_FRAME_COUNT);
       "fps" := PyFloat (cv2.VideoCapture_get capture cv2.CAP_PROP_FPS);
       "width" := PyInt (int (cv2.VideoCapture_get capture cv2.CAP_PROP_FRAME_WIDTH));
       "height" := PyInt (int (cv2.VideoCapture_get capture cv2.CAP_PROP_FRAME_HEIGHT));
       "codec" := PyInt (int (cv2.VideoCapture_get capture cv2.CAP_PROP_FOURCC)) ]} in
  (* open a new video file *)
  codec ← call (getitem capture_info "codec");
  fps ← call (getitem capture_info "fps");
  width ← call (getitem capture_info "width");
  height ← call (getitem capture_info "height");
  new_video ← call (cv2.VideoWriter_new output_video_path codec fps
                      (width, height) true);
  new_video_assign new_video;;
  (* read video frames and convert to black and white *)
  capture_read;;
  count_assign 0;;
  while_success (
    image ← image_var;
    grayscale_image ← call (cv2.cvtColor (cv2.as_mat image) cv2.COLOR_BGR2GRAY);
    '(_, bw_image) ← call (cv2.threshold getThreshVal_Otsu_8u grayscale_image
                             0 255 (cv2.THRESH_BINARY + cv2.THRESH_OTSU));
    new_rgb_frame ← call (cv2.cvtColor bw_image cv2.COLOR_GRAY2RGB);
    new_video_write new_rgb_frame;;
    capture_read;;
    count_incr);;
  (* release the video and close *)
  capture_release;;
  new_video_release;;
  destroyAllWindows.

Definition convert_video_to_sobel
    (input_video_path output_video_path : string) : M unit :=
  (* read video *)
  capture_assign (cv2.VideoCapture_new disk input_video_path);;
  (* print get output - might need to do something else here *)
  capture ← capture_var;
  let capture_info : gmap string pyval :=
    {[ "framecount" := PyFloat (cv2.VideoCapture_get capture cv2.CAP_PROP_FRAME_COUNT);
       "fps" := PyFloat (cv2.VideoCapture_get capture cv2.CAP_PROP_FPS);
       "width" := PyInt (int (cv2.VideoCapture_get capture cv2.CAP_PROP_FRAME_WIDTH));
       "height" := PyInt (int (cv2.VideoCapture_get capture cv2.CAP_PROP_FRAME_HEIGHT));
       "codec" := PyInt (int (cv2.VideoCapture_get capture cv2.CAP_PROP_FOURCC)) ]} in
  (* open a new video file *)
  codec ← call (getitem capture_info "codec");
  fps ← call (getitem capture_info "fps");
  width ← call (getitem capture_info "width");
  height ← call (getitem capture_info "height");
  new_video ← call (cv2.VideoWriter_new output_video_path codec fps
                      (width, height) true);
  new_video_assign new_video;;
  (* read video frames and apply sobel filter *)
  capture_read;;
  count_assign 0;;
  while_success (
    image ← image_var;
    grayscale_image ← call (cv2.cvtColor (cv2.as_mat image) cv2.COLOR_BGR2GRAY);
    sobel_image ← call (cv2.Sobel grayscale_image (-1) 1 1 5);
    new_rgb_frame ← call (cv2.cvtColor sobel_image cv2.COLOR_GRAY2RGB);
    new_video_write new_rgb_frame;;
    capture_read;;
    count_incr);;
  (* release the video and close *)
  capture_release;;
  new_video_release;;
  destroyAllWindows.

(** A procedure call: the body runs on fresh local variables, and the
    variables it leaves behind are appended to the record of finished
    (or abandoned) calls. *)
Definition invoke (body : M unit) : ST (list Locals) unit := fun calls =>
  let '(r, locals) := body unbound in (r, calls ++ [locals]).

Definition main : ST (list Locals) unit :=
  invoke (convert_video_to_grayscale INPUT_VIDEO GRAYSCALE_VIDEO);;
  invoke (convert_video_to_black_and_white INPUT_VIDEO BLACK_AND_WHITE_VIDEO);;
  invoke (convert_video_to_sobel INPUT_VIDEO SOBEL_VIDEO).

End Program.

(** The exit status of the interpreter running [main()] as a script. *)
Definition exit_status {A} (r : outcome A) : Z :=
  match r with
  | Ok _ => 0
  | _ => 1
  end.

(** ** The per-frame transforms and the shape shared by the three loops *)

(** What each loop body computes from the frame it was handed, as one
    function of that frame. *)
Definition grayscale_frame (image : cv2.Mat) : outcome cv2.Mat :=
  cv2.cvtColor image cv2.COLOR_BGR2GRAY.

Definition black_and_white_frame (getThreshVal_Otsu_8u : list (list Z) -> Z)
    (image : cv2.Mat) : outcome cv2.Mat :=
  grayscale_image ← cv2.cvtColor image cv2.COLOR_BGR2GRAY;
  '(_, bw_image) ← cv2.threshold getThreshVal_Otsu_8u grayscale_image 0 255
                     (cv2.THRESH_BINARY + cv2.THRESH_OTSU);
  cv2.cvtColor bw_image cv2.COLOR_GRAY2RGB.

Definition sobel_frame (image : cv2.Mat) : outcome cv2.Mat :=
  grayscale_image ← cv2.cvtColor image cv2.COLOR_BGR2GRAY;
  sobel_image ← cv2.Sobel grayscale_image (-1) 1 1 5;
  cv2.cvtColor sobel_image cv2.COLOR_GRAY2RGB.

(** A loop body that transforms the current image with [T], writes the
    result, reads the next frame and counts. *)
Definition frame_body (T : cv2.Mat -> outcome cv2.Mat) : M unit :=
  image ← image_var;
  out ← call (T (cv2.as_mat image));
  new_video_write out;;
  capture_read;;
  count_incr.

(** The frames a capture reads successfully from a stream, up to the
    first read that fails. *)
Fixpoint readable (stream : list (option cv2.Mat)) : list cv2.Mat :=
  match stream with
  | Some m :: rest => if cv2.empty m then [] else m :: readable rest
  | _ => []
  end.

(** How a loop over the frames [frames] ends. *)
Record LoopEnd := {
  le_result : outcome unit;
  le_writer : cv2.VideoWriter;
  le_image : option cv2.Mat;
  le_count : Z
}.

Fixpoint convert_frames (T : cv2.Mat -> outcome cv2.Mat) (frames : list cv2.Mat)
    (w : cv2.VideoWriter) (n : Z) : LoopEnd :=
  match frames with
  | [] => {| le_result := Ok tt; le_writer := w; le_image := None; le_count := n |}
  | f :: rest =>
      match T f with
      | Ok out => convert_frames T rest (cv2.VideoWriter_write w out) (n + 1)
      | Raise e =>
          {| le_result := Raise e; le_writer := w; le_image := Some f; le_count := n |}
      | OutOfFuel =>
          {| le_result := OutOfFuel; le_writer := w; le_image := Some f; le_count := n |}
      end
  end.

(** Everything the three procedures do once the writer is open. *)
Definition read_convert_release (body : M unit) : M unit :=
  capture_read;;
  count_assign 0;;
  while_success body;;
  capture_release;;
  new_video_release;;
  destroyAllWindows.

(** A capture that has not been released, and that has nothing pending
    when it is not opened. *)
Definition live_capture (c : cv2.VideoCapture) : Prop :=
  cv2.vc_released c = false ∧ (cv2.vc_source c = None → cv2.vc_pending c = []).

(** The state at a loop test: the capture and writer in hand, and the
    frames [fs] that the loop is still going to be handed. *)
Definition at_loop_test (s : Locals) (c : cv2.VideoCapture)
    (w : cv2.VideoWriter) (fs : list cv2.Mat) : Prop :=
  capture s = Some c ∧ live_capture c ∧ new_video s = Some w ∧
  match success s, image s with
  | true, Some f => fs = f :: readable (cv2.vc_pending c)
  | false, None => fs = []
  | _, _ => False
  end.

(** The state a loop leaves behind, given where the capture stands. *)
Definition loop_exit (c : cv2.VideoCapture) (e : LoopEnd) : outcome unit * Locals :=
  (le_result e,
   {| capture := Some c; new_video := Some (le_writer e);
      success := match le_image e with Some _ => true | None => false end;
      image := le_image e; count := le_count e |}).

(** The state a procedure leaves behind: after a loop that ended
    normally both handles are released; an exception leaves the state
    as the loop left it. *)
Definition procedure_exit (c : cv2.VideoCapture) (e : LoopEnd)
  : outcome unit * Locals :=
  match le_result e with
  | Ok _ =>
      (Ok tt,
       {| capture := Some (cv2.VideoCapture_release c);
          new_video := Some (cv2.VideoWriter_release (le_writer e));
          success := false; image := None; count := le_count e |})
  | _ => loop_exit c e
  end.

Definition opened_writer (filename : string) (fourcc : Z) (fps : Q)
    (frameSize : Z * Z) (isColor : bool) : cv2.VideoWriter :=
  {| cv2.vw_filename := filename; cv2.vw_fourcc := fourcc; cv2.vw_fps := fps;
     cv2.vw_frameSize := frameSize; cv2.vw_isColor := isColor;
     cv2.vw_frames := []; cv2.vw_released := false |}.

Definition color_writer_state disk input output : Locals :=
  let c := cv2.VideoCapture_new disk input in
  {| capture := Some c;
     new_video := Some (opened_writer output
       (int (cv2.VideoCapture_get c cv2.CAP_PROP_FOURCC))
       (cv2.VideoCapture_get c cv2.CAP_PROP_FPS)
       (int (cv2.VideoCapture_get c cv2.CAP_PROP_FRAME_WIDTH),
        int (cv2.VideoCapture_get c cv2.CAP_PROP_FRAME_HEIGHT)) true);
     success := false; image := None; count := 0 |}.

(** The frames a loop with transform [T] writes when handed [fs]: the
    transforms of the frames before the first one [T] refuses. *)
Fixpoint outputs (T : cv2.Mat -> outcome cv2.Mat) (fs : list cv2.Mat)
  : list cv2.Mat :=
  match fs with
  | [] => []
  | f :: rest =>
      match T f with
      | Ok out => out :: outputs T rest
      | _ => []
      end
  end.

(** The pixel rule of [THRESH_BINARY] with [maxval] 255. *)
Definition binarize (t v : Z) : Z := if t <? v then 255 else 0.

(** The aperture-5 first-derivative kernel. *)
Definition sobel_kernel : list Z := [-1; -2; 0; 2; 1].

(** The three transforms, as one family. *)
Inductive Conversion := Grayscale | BlackAndWhite | SobelMap.

Definition transform (otsu : list (list Z) → Z) (p : Conversion)
  : cv2.Mat → outcome cv2.Mat :=
  match p with
  | Grayscale => grayscale_frame
  | BlackAndWhite => black_and_white_frame otsu
  | SobelMap => sobel_frame
  end.

(** ** The three procedures as one family *)

Definition convert (otsu : list (list Z) → Z) (disk : gmap string cv2.VideoFile)
    (p : Conversion) (input output : string) : outcome unit * Locals :=
  match p with
  | Grayscale => convert_video_to_grayscale disk input output unbound
  | BlackAndWhite => convert_video_to_black_and_white otsu disk input output unbound
  | SobelMap => convert_video_to_sobel disk input output unbound
  end.

(** What an observer of a finished call can tell. *)
Definition written (x : outcome unit * Locals) : list cv2.Mat :=
  from_option cv2.vw_frames [] (new_video (snd x)).

Definition capture_released (x : outcome unit * Locals) : bool :=
  from_option cv2.vc_released false (capture (snd x)).

Definition writer_released (x : outcome unit * Locals) : bool :=
  from_option cv2.vw_released false (new_video (snd x)).

(** The frames the capture opened on [input] reads before its first
    failed read; none when the file cannot be opened. *)
Definition source_frames (disk : gmap string cv2.VideoFile) (input : string)
  : list cv2.Mat :=
  readable (cv2.vc_pending (cv2.VideoCapture_new disk input)).

(** The property value the capture opened on [input] reports. *)
Definition source_property (disk : gmap string cv2.VideoFile) (input : string)
    (prop : cv2.VideoCaptureProperties) : Q :=
  cv2.VideoCapture_get (cv2.VideoCapture_new disk input) prop.

(** The writer each procedure opens. *)
Definition writer_for (disk : gmap string cv2.VideoFile) (p : Conversion)
    (input output : string) : cv2.VideoWriter :=
  let fourcc := int (source_property disk input cv2.CAP_PROP_FOURCC) in
  let size := (int (source_property disk input cv2.CAP_PROP_FRAME_WIDTH),
               int (source_property disk input cv2.CAP_PROP_FRAME_HEIGHT)) in
  match p with
  | Grayscale =>
      opened_writer output fourcc
        (inject_Z (int (source_property disk input cv2.CAP_PROP_FPS))) size false
  | _ =>
      opened_writer output fourcc (source_property disk input cv2.CAP_PROP_FPS)
        size true
  end.

(** ** Sample inputs and observers used in the statements *)

Definition sample_frame_1 : cv2.Mat :=
  cv2.Mat8UC3 [[(10, 20, 30); (200, 210, 220); (0, 0, 0)];
               [(255, 255, 255); (90, 60, 30); (12, 250, 7)]].

Definition sample_frame_2 : cv2.Mat :=
  cv2.Mat8UC3 [[(1, 2, 3); (4, 5, 6); (7, 8, 9)];
               [(200, 100, 0); (0, 100, 200); (50, 50, 50)]].

(** An NTSC-rate clip of two colour frames, codec tag 'MJPG'. *)
Definition sample_video : cv2.VideoFile :=
  {| cv2.file_fourcc := 1196444237; cv2.file_fps := 30000 # 1001;
     cv2.file_width := 3; cv2.file_height := 2; cv2.file_frame_count := 2;
     cv2.file_frames := [Some sample_frame_1; Some sample_frame_2] |}.

Definition sample_disk : gmap string cv2.VideoFile :=
  {[ INPUT_VIDEO := sample_video ]}.

(** Every channel value of every pixel of a frame. *)
Definition pixel_values (m : cv2.Mat) : list Z :=
  match m with
  | cv2.Mat8UC1 px => concat px
  | cv2.Mat8UC3 px => concat (map (λ '(b, g, r), [b; g; r]) (concat px))
  end.

Definition black_frame : cv2.Mat :=
  cv2.Mat8UC3 [[(0, 0, 0); (0, 0, 0)]; [(0, 0, 0); (0, 0, 0)]].

Definition black_video : cv2.VideoFile :=
  {| cv2.file_fourcc := 1196444237; cv2.file_fps := 25;
     cv2.file_width := 2; cv2.file_height := 2; cv2.file_frame_count := 1;
     cv2.file_frames := [Some black_frame] |}.

Definition gray_frame : cv2.Mat := cv2.Mat8UC1 [[1; 2; 3]; [4; 5; 6]].

(** A clip whose second frame arrives single-channel. *)
Definition mixed_video : cv2.VideoFile :=
  {| cv2.file_fourcc := 1196444237; cv2.file_fps := 25;
     cv2.file_width := 3; cv2.file_height := 2; cv2.file_frame_count := 3;
     cv2.file_frames := [Some sample_frame_1; Some gray_frame; Some sample_frame_2] |}.

Definition with_frames (vf : cv2.VideoFile) (frames : list (option cv2.Mat))
  : cv2.VideoFile :=
  {| cv2.file_fourcc := cv2.file_fourcc vf; cv2.file_fps := cv2.file_fps vf;
     cv2.file_width := cv2.file_width vf; cv2.file_height := cv2.file_height vf;
     cv2.file_frame_count := cv2.file_frame_count vf;
     cv2.file_frames := frames |}.

(** Everything a finished call shows apart from the position of the
    capture in its file: how it ended, the writer with all it was handed,
    the loop variables, and whether the capture was released. *)
Definition observe (x : outcome unit * Locals)
  : outcome unit * option cv2.VideoWriter * bool * option cv2.Mat * Z * bool :=
  (fst x, new_video (snd x), success (snd x), image (snd x), count (snd x),
   capture_released x).

(** The same frame twice in one clip. *)
Definition repeated_video : cv2.VideoFile :=
  with_frames sample_video [Some sample_frame_2; Some sample_frame_1; Some sample_frame_2].

(** A writer opened from a capture that reported nothing, and handed
    nothing. *)
Definition zeroed_and_unused (s : Locals) : Prop :=
  ∃ w, new_video s = Some w ∧ cv2.vw_fourcc w = 0 ∧ cv2.vw_fps w = 0%Q ∧
       cv2.vw_frameSize w = (0, 0) ∧ cv2.vw_frames w = [].

Definition rectangular {A} (img : list (list A)) : Prop :=
  Forall (λ row, length row = length (hd [] img)) img.

(** The source sample at (row [y], column [x]), with positions outside
    the image reflected back in ([BORDER_REFLECT_101]). *)
Definition reflect_at (img : list (list Z)) (y x : Z) : Z :=
  nth (Z.to_nat (cv2.borderInterpolate x (Z.of_nat (length (hd [] img)))))
      (nth (Z.to_nat (cv2.borderInterpolate y (Z.of_nat (length img)))) img []) 0.

(** The 5x5 kernel that differentiates once along both axes: the outer
    product of the 1-D derivative kernel with itself. *)
Definition sobel_kernel_5x5 : list (list Z) :=
  map (λ ky, map (λ kx, ky * kx) sobel_kernel) sobel_kernel.

(** Correlation of a 5x5 kernel with the image around (y, x). *)
Definition correlate_5x5 (K : list (list Z)) (img : list (list Z)) (y x : Z) : Z :=
  foldr Z.add 0
    (imap (λ i Krow,
       foldr Z.add 0
         (imap (λ j Kij, Kij * reflect_at img (y + Z.of_nat i - 2) (x + Z.of_nat j - 2))
            Krow)) K).

(** A clip of one frame: a bright square in the lower right corner. *)
Definition corner_frame : cv2.Mat :=
  let d := (0, 0, 0) in
  let w := (10, 10, 10) in
  cv2.Mat8UC3 [[d; d; d; d; d; d]; [d; d; d; d; d; d]; [d; d; d; w; w; w];
               [d; d; d; w; w; w]; [d; d; d; w; w; w]; [d; d; d; w; w; w]].

Definition corner_video : cv2.VideoFile :=
  {| cv2.file_fourcc := 1196444237; cv2.file_fps := 25;
     cv2.file_width := 6; cv2.file_height := 6; cv2.file_frame_count := 1;
     cv2.file_frames := [Some corner_frame] |}.

Definition corner_edges : cv2.Mat :=
  let g v := (v, v, v) in
  cv2.Mat8UC3
    [[g 0; g 0; g 0; g 0; g 0; g 0]; [g 0; g 30; g 90; g 90; g 30; g 0];
     [g 0; g 30; g 90; g 90; g 30; g 0]; [g 0; g 10; g 30; g 30; g 10; g 0];
     [g 0; g 0; g 0; g 0; g 0; g 0]; [g 0; g 0; g 0; g 0; g 0; g 0]].

(** ** Further notions used in the statements *)

(** The frames a loop gets through: those read before the first frame
    that is not a colour frame. *)
Fixpoint colour_prefix (frames : list cv2.Mat) : list cv2.Mat :=
  match frames with
  | f :: rest =>
      if (cv2.channels f =? 3)%nat then f :: colour_prefix rest else []
  | [] => []
  end.

(** What a procedure makes of a colour frame, written with the pixel
    rules in place of the library calls. *)
Definition converted (otsu : list (list Z) → Z) (p : Conversion)
    (px : list (list (Z * Z * Z))) : cv2.Mat :=
  let g := map (map cv2.RGB2Gray) px in
  match p with
  | Grayscale => cv2.Mat8UC1 g
  | BlackAndWhite =>
      cv2.Mat8UC3 (map (map cv2.Gray2RGB) (map (map (binarize (otsu g))) g))
  | SobelMap =>
      cv2.Mat8UC3 (map (map cv2.Gray2RGB)
                     (cv2.sepFilter2D sobel_kernel sobel_kernel g))
  end.

(** The number of channels of the frames a procedure hands to its
    writer. *)
Definition output_channels (p : Conversion) : nat :=
  match p with
  | Grayscale => 1
  | _ => 3
  end.

(** The file name each call of [main] hands to its writer. *)
Definition writer_names (calls : list Locals) : list (option string) :=
  (λ s, cv2.vw_filename <$> new_video s) <$> calls.

(** A clip with integral metadata and one uniform frame. *)
Definition uniform_frame : cv2.Mat :=
  let c := (40, 80, 120) in
  cv2.Mat8UC3 [[c; c; c]; [c; c; c]; [c; c; c]].

Definition uniform_video : cv2.VideoFile :=
  {| cv2.file_fourcc := 1196444237; cv2.file_fps := 25;
     cv2.file_width := 3; cv2.file_height := 3; cv2.file_frame_count := 1;
     cv2.file_frames := [Some uniform_frame] |}.

(** A frame with one straight edge: black on the left, white on the
    right, the same in every row. *)
Definition edge_frame : cv2.Mat :=
  let d := (0, 0, 0) in
  let w := (255, 255, 255) in
  cv2.Mat8UC3 [[d; d; d; w; w; w]; [d; d; d; w; w; w]; [d; d; d; w; w; w];
               [d; d; d; w; w; w]; [d; d; d; w; w; w]; [d; d; d; w; w; w]].

Definition edge_video : cv2.VideoFile :=
  {| cv2.file_fourcc := 1196444237; cv2.file_fps := 25;
     cv2.file_width := 6; cv2.file_height := 6; cv2.file_frame_count := 1;
     cv2.file_frames := [Some edge_frame] |}.

(** A frame with a bright, coloured patch on a dark ground: it has
    corners of both orientations. *)
Definition patch_frame : cv2.Mat :=
  let d := (10, 20, 30) in
  let w := (30, 220, 250) in
  cv2.Mat8UC3 [[d; d; d; d; d; d; d; d]; [d; d; d; d; d; d; d; d];
               [d; d; d; d; d; d; d; d]; [d; d; d; w; w; w; d; d];
               [d; d; d; w; w; w; d; d]; [d; d; d; w; w; w; d; d]].

Definition patch_video : cv2.VideoFile :=
  {| cv2.file_fourcc := 1196444237; cv2.file_fps := 25;
     cv2.file_width := 8; cv2.file_height := 6; cv2.file_frame_count := 1;
     cv2.file_frames := [Some patch_frame] |}.

Definition patch_edges : cv2.Mat :=
  let g v := (v, v, v) in
  cv2.Mat8UC3
    [[g 0; g 0; g 0; g 0; g 0; g 0; g 0; g 0];
     [g 0; g 185; g 255; g 255; g 0; g 0; g 0; g 0];
     [g 0; g 255; g 255; g 255; g 0; g 0; g 0; g 0];
     [g 0; g 255; g 255; g 255; g 0; g 0; g 0; g 0];
     [g 0; g 185; g 255; g 255; g 0; g 0; g 0; g 0];
     [g 0; g 0; g 0; g 0; g 0; g 0; g 0; g 0]].

(** The answers of a capture on an NTSC-rate clip whose frame count is
    not known, and of one whose frame rate comes out infinite. *)
Definition ntsc_probe (prop : cv2.VideoCaptureProperties) : pyfloat :=
  match prop with
  | cv2.CAP_PROP_FOURCC => Finite 1196444237
  | cv2.CAP_PROP_FPS => Finite (30000 # 1001)
  | cv2.CAP_PROP_FRAME_HEIGHT => Finite 2
  | cv2.CAP_PROP_FRAME_WIDTH => Finite 3
  | cv2.CAP_PROP_FRAME_COUNT => NaN
  end.

Definition infinite_rate_probe (prop : cv2.VideoCaptureProperties) : pyfloat :=
  match prop with
  | cv2.CAP_PROP_FPS => Infinity false
  | _ => ntsc_probe prop
  end.

(** [BORDER_REFLECT_101] in closed form, for a position at most two
    steps outside a line of at least three samples. *)
Definition reflect_101 (p len : Z) : Z :=
  if p <? 0 then - p else if len <=? p then 2 * len - 2 - p else p.

(** * Properties *)

(** ** Basic facts about the library model *)

Lemma live_capture_new disk path : live_capture (cv2.VideoCapture_new disk path).
Proof.
  unfold cv2.VideoCapture_new, live_capture.
  destruct (disk !! path); simpl; split; congruence.
Qed.

Lemma read_live c :
  live_capture c →
  cv2.VideoCapture_read c =
    match cv2.vc_pending c with
    | [] => ((false, None), c)
    | frame :: rest =>
        let c' := {| cv2.vc_source := cv2.vc_source c; cv2.vc_pending := rest;
                     cv2.vc_released := cv2.vc_released c |} in
        match frame with
        | Some m => if cv2.empty m then ((false, None), c') else ((true, Some m), c')
        | None => ((false, None), c')
        end
    end.
Proof.
  intros [Hrel Hsrc]. unfold cv2.VideoCapture_read, cv2.VideoCapture_isOpened.
  destruct (cv2.vc_source c) eqn:Es.
  - by rewrite Hrel.
  - by rewrite Hsrc.
Qed.

Lemma capture_read_spec s c w :
  capture s = Some c → live_capture c → new_video s = Some w →
  ∃ s' c',
    capture_read s = (Ok tt, s') ∧
    at_loop_test s' c' w (readable (cv2.vc_pending c)) ∧
    count s' = count s ∧
    cv2.vc_source c' = cv2.vc_source c ∧
    (success s' = true → S (length (cv2.vc_pending c')) = length (cv2.vc_pending c)).
Proof.
  intros Hc Hlive Hw. unfold capture_read. rewrite Hc, (read_live c Hlive).
  destruct Hlive as [Hrel Hsrc].
  destruct (cv2.vc_pending c) as [|[m|] rest] eqn:Ep; simpl.
  - eexists _, c. repeat split; simpl; try done; by rewrite Ep.
  - destruct (cv2.empty m) eqn:Em;
      (eexists _, _; split; [reflexivity|]);
      unfold at_loop_test, live_capture; simpl; rewrite ?Em; repeat split;
      try done; intros Hn; specialize (Hsrc Hn); done.
  - eexists _, _; split; [reflexivity|].
    unfold at_loop_test, live_capture; simpl; repeat split; try done.
    intros Hn; specialize (Hsrc Hn); done.
Qed.

(** ** The loops refine [convert_frames] *)

Lemma while_fuel_ext fuel cond (b1 b2 : M unit) :
  (∀ s, b1 s = b2 s) →
  ∀ s, while_fuel fuel cond b1 s = while_fuel fuel cond b2 s.
Proof.
  intros Hb. induction fuel as [|fuel IH]; intros s; simpl; [done|].
  rewrite Hb. destruct (cond s); [|done].
  destruct (b2 s) as [[[]| |] s']; auto.
Qed.

Lemma read_convert_release_ext (b1 b2 : M unit) :
  (∀ s, b1 s = b2 s) →
  ∀ s, read_convert_release b1 s = read_convert_release b2 s.
Proof.
  intros Hb s. unfold read_convert_release, mbind, ST_bind.
  destruct (capture_read s) as [[[]| |] s1]; try done.
  destruct (count_assign 0 s1) as [[[]| |] s2]; try done.
  unfold while_success. by rewrite (while_fuel_ext _ _ b1 b2 Hb).
Qed.

Lemma frame_body_step T s f :
  image s = Some f →
  frame_body T s =
    match T f with
    | Ok out => (new_video_write out;; capture_read;; count_incr) s
    | Raise e => (Raise e, s)
    | OutOfFuel => (OutOfFuel, s)
    end.
Proof.
  intros Him. unfold frame_body, mbind, ST_bind, image_var, call.
  rewrite Him. simpl. by destruct (T f).
Qed.

Lemma while_convert T fuel :
  ∀ s c w fs,
    at_loop_test s c w fs →
    (success s = true → (length (cv2.vc_pending c) < fuel)%nat) →
    ∃ c', while_fuel fuel success (frame_body T) s
          = loop_exit c' (convert_frames T fs w (count s)) ∧
          live_capture c' ∧ cv2.vc_source c' = cv2.vc_source c.
Proof.
  induction fuel as [|fuel IH]; intros s c w fs (Hc & Hlive & Hw & Hfs) Hfuel.
  - destruct s as [cap nv [] im n]; simpl in *; [specialize (Hfuel eq_refl); lia|].
    destruct im; [done|]. subst. by exists c.
  - destruct s as [cap nv [] im n];
      cbn [success image capture new_video count] in *.
    2:{ destruct im; [done|]. subst. by exists c. }
    destruct im as [f|]; [|done]. subst cap nv fs.
    cbn [while_fuel success].
    erewrite frame_body_step by reflexivity.
    cbn [convert_frames count].
    destruct (T f) as [out| |] eqn:ET; simpl; try by exists c.
    unfold mbind, ST_bind, new_video_write; simpl.
    set (s1 := {| capture := Some c;
                  new_video := Some (cv2.VideoWriter_write w out);
                  success := true; image := Some f; count := n |}).
    destruct (capture_read_spec s1 c (cv2.VideoWriter_write w out))
      as (s2 & c2 & -> & Hat & Hcount & Hsrc & Hlen); try done.
    unfold count_incr.
    destruct Hat as (Hc2 & Hlive2 & Hw2 & Hfs2).
    edestruct (IH {| capture := capture s2; new_video := new_video s2;
                     success := success s2; image := image s2;
                     count := count s2 + 1 |} c2 (cv2.VideoWriter_write w out)
                 (readable (cv2.vc_pending c))) as (c' & -> & Hl' & Hs').
    { unfold at_loop_test; simpl; auto. }
    { simpl. intros Hok. specialize (Hlen Hok). specialize (Hfuel eq_refl). lia. }
    exists c'. simpl. rewrite Hcount. simpl.
    split; [done|split; [done|congruence]].
Qed.

Lemma convert_frames_ok_image T fs w n :
  le_result (convert_frames T fs w n) = Ok tt →
  le_image (convert_frames T fs w n) = None.
Proof.
  revert w n. induction fs as [|f fs IH]; intros w n; simpl; [done|].
  destruct (T f); simpl; auto; discriminate.
Qed.

Lemma read_convert_release_spec T s c w :
  capture s = Some c → live_capture c → new_video s = Some w →
  ∃ c', read_convert_release (frame_body T) s
        = procedure_exit c' (convert_frames T (readable (cv2.vc_pending c)) w 0) ∧
        live_capture c' ∧ cv2.vc_source c' = cv2.vc_source c.
Proof.
  intros Hc Hlive Hw. unfold read_convert_release, mbind at 1, ST_bind at 1.
  destruct (capture_read_spec s c w Hc Hlive Hw)
    as (s1 & c1 & -> & Hat & _ & Hsrc & Hlen).
  unfold mbind at 1, ST_bind at 1, count_assign at 1.
  unfold mbind at 1, ST_bind at 1, while_success.
  destruct Hat as (Hc1 & Hlive1 & Hw1 & Hfs1).
  set (s2 := {| capture := capture s1; new_video := new_video s1;
                success := success s1; image := image s1; count := 0 |}).
  destruct (while_convert T (reads_left s2) s2 c1 w (readable (cv2.vc_pending c)))
    as (c' & -> & Hlive' & Hsrc').
  { unfold at_loop_test; simpl; auto. }
  { intros _. unfold reads_left, s2; simpl. rewrite Hc1. lia. }
  exists c'. split; [|split; [done|congruence]].
  subst s2. cbn [count]. unfold procedure_exit, loop_exit.
  pose proof (convert_frames_ok_image T (readable (cv2.vc_pending c)) w 0) as Him.
  destruct (le_result _) as [[]| |]; [|done|done].
  rewrite (Him eq_refl). reflexivity.
Qed.

Lemma grayscale_prefix disk input output :
  convert_video_to_grayscale disk input output unbound =
  read_convert_release (frame_body grayscale_frame)
    (let c := cv2.VideoCapture_new disk input in
     {| capture := Some c;
        new_video := Some (opened_writer output
          (int (cv2.VideoCapture_get c cv2.CAP_PROP_FOURCC))
          (inject_Z (int (cv2.VideoCapture_get c cv2.CAP_PROP_FPS)))
          (int (cv2.VideoCapture_get c cv2.CAP_PROP_FRAME_WIDTH),
           int (cv2.VideoCapture_get c cv2.CAP_PROP_FRAME_HEIGHT)) false);
        success := false; image := None; count := 0 |}).
Proof. reflexivity. Qed.

Lemma black_and_white_prefix otsu disk input output :
  convert_video_to_black_and_white otsu disk input output unbound =
  read_convert_release (frame_body (black_and_white_frame otsu))
    (color_writer_state disk input output).
Proof.
  transitivity (read_convert_release
    (image ← image_var;
     grayscale_image ← call (cv2.cvtColor (cv2.as_mat image) cv2.COLOR_BGR2GRAY);
     '(_, bw_image) ← call (cv2.threshold otsu grayscale_image
                              0 255 (cv2.THRESH_BINARY + cv2.THRESH_OTSU));
     new_rgb_frame ← call (cv2.cvtColor bw_image cv2.COLOR_GRAY2RGB);
     new_video_write new_rgb_frame;;
     capture_read;;
     count_incr) (color_writer_state disk input output)); [reflexivity|].
  apply read_convert_release_ext. intros s.
  unfold frame_body, black_and_white_frame, mbind, ST_bind, outcome_bind,
    image_var, call.
  destruct (cv2.cvtColor _ _) as [g| |]; try done;
    destruct (cv2.threshold _ _ _ _ _) as [[t bw]| |]; try done;
    by destruct (cv2.cvtColor _ _).
Qed.

Lemma sobel_prefix disk input output :
  convert_video_to_sobel disk input output unbound =
  read_convert_release (frame_body sobel_frame)
    (color_writer_state disk input output).
Proof.
  transitivity (read_convert_release
    (image ← image_var;
     grayscale_image ← call (cv2.cvtColor (cv2.as_mat image) cv2.COLOR_BGR2GRAY);
     sobel_image ← call (cv2.Sobel grayscale_image (-1) 1 1 5);
     new_rgb_frame ← call (cv2.cvtColor sobel_image cv2.COLOR_GRAY2RGB);
     new_video_write new_rgb_frame;;
     capture_read;;
     count_incr) (color_writer_state disk input output)); [reflexivity|].
  apply read_convert_release_ext. intros s.
  unfold frame_body, sobel_frame, mbind, ST_bind, outcome_bind, image_var, call.
  destruct (cv2.cvtColor _ _) as [g| |]; try done;
    destruct (cv2.Sobel _ _ _ _ _) as [sb| |]; try done;
    by destruct (cv2.cvtColor _ _).
Qed.

(** ** What the loops write *)

Lemma write_live w out :
  cv2.vw_released w = false →
  cv2.VideoWriter_write w out =
    {| cv2.vw_filename := cv2.vw_filename w; cv2.vw_fourcc := cv2.vw_fourcc w;
       cv2.vw_fps := cv2.vw_fps w; cv2.vw_frameSize := cv2.vw_frameSize w;
       cv2.vw_isColor := cv2.vw_isColor w;
       cv2.vw_frames := cv2.vw_frames w ++ [out]; cv2.vw_released := false |}.
Proof. intros H. unfold cv2.VideoWriter_write. by rewrite H. Qed.

Lemma convert_frames_writer T fs :
  ∀ w n,
    cv2.vw_released w = false →
    le_writer (convert_frames T fs w n) =
      {| cv2.vw_filename := cv2.vw_filename w; cv2.vw_fourcc := cv2.vw_fourcc w;
         cv2.vw_fps := cv2.vw_fps w; cv2.vw_frameSize := cv2.vw_frameSize w;
         cv2.vw_isColor := cv2.vw_isColor w;
         cv2.vw_frames := cv2.vw_frames w ++ outputs T fs;
         cv2.vw_released := false |}.
Proof.
  induction fs as [|f fs IH]; intros w n Hw; simpl.
  - rewrite app_nil_r. destruct w; simpl in *; by subst.
  - destruct (T f) as [out| |]; simpl;
      try (rewrite app_nil_r; destruct w; simpl in *; by subst).
    rewrite IH, (write_live w out Hw); simpl; [|by rewrite write_live].
    by rewrite <- app_assoc.
Qed.

Lemma convert_frames_count T fs :
  ∀ w n, le_count (convert_frames T fs w n) = n + Z.of_nat (length (outputs T fs)).
Proof.
  induction fs as [|f fs IH]; intros w n; simpl; [lia|].
  destruct (T f); simpl; try lia. rewrite IH. lia.
Qed.

Lemma outputs_lookup T fs :
  ∀ k out, outputs T fs !! k = Some out → ∃ f, fs !! k = Some f ∧ T f = Ok out.
Proof.
  induction fs as [|f fs IH]; intros k out; simpl; [done|].
  destruct (T f) as [y| |] eqn:ET; [|done|done].
  destruct k as [|k]; simpl.
  - intros [= <-]. eauto.
  - apply IH.
Qed.

Lemma outputs_Forall2 T fs :
  Forall (λ f, ∃ out, T f = Ok out) fs →
  Forall2 (λ f out, T f = Ok out) fs (outputs T fs).
Proof.
  induction 1 as [|f fs [out Hout] _ IH]; simpl; [constructor|].
  rewrite Hout. by constructor.
Qed.

Lemma convert_frames_ok T fs :
  ∀ w n,
    Forall (λ f, ∃ out, T f = Ok out) fs →
    le_result (convert_frames T fs w n) = Ok tt.
Proof.
  induction fs as [|f fs IH]; intros w n Hall; simpl; [done|].
  inversion Hall as [|? ? [out Hout] Hrest]; subst. rewrite Hout. by apply IH.
Qed.

Lemma convert_frames_raise T fs :
  ∀ w n,
    (∀ f, T f ≠ OutOfFuel) →
    ¬ Forall (λ f, ∃ out, T f = Ok out) fs →
    ∃ e, le_result (convert_frames T fs w n) = Raise e.
Proof.
  induction fs as [|f fs IH]; intros w n Hfuel Hnot; simpl.
  - destruct Hnot. constructor.
  - destruct (T f) as [out|e|] eqn:ET; simpl; [| by eauto | by destruct (Hfuel f)].
    apply IH; [done|]. intros Hall. apply Hnot. constructor; eauto.
Qed.

(** *** The frames a capture reads *)

Lemma readable_not_empty stream :
  Forall (λ f, cv2.empty f = false) (readable stream).
Proof.
  induction stream as [|[m|] rest IH]; simpl; try constructor.
  destruct (cv2.empty m) eqn:Em; by constructor.
Qed.

(** A failed read hides whatever follows it. *)
Lemma readable_app_None pre rest :
  readable (pre ++ None :: rest) = readable pre.
Proof.
  induction pre as [|[m|] pre IH]; simpl; try done.
  destruct (cv2.empty m); [done|]. by rewrite IH.
Qed.

(** When every entry decodes to a non-empty image, every frame is read. *)
Lemma readable_all stream :
  Forall (λ e, ∃ m, e = Some m ∧ cv2.empty m = false) stream →
  Some <$> readable stream = stream.
Proof.
  induction 1 as [|e rest (m & -> & Hm) _ IH]; simpl; [done|].
  rewrite Hm. rewrite fmap_cons. by rewrite IH.
Qed.

(** ** The transforms on colour frames *)

Lemma hd_map_length {A B} (f : A → B) (l : list (list A)) :
  length (hd [] (map (map f) l)) = length (hd [] l).
Proof. destruct l; simpl; [done|apply length_map]. Qed.

Lemma empty_map_1_3 (f : Z * Z * Z → Z) px :
  cv2.empty (cv2.Mat8UC1 (map (map f) px)) = cv2.empty (cv2.Mat8UC3 px).
Proof. unfold cv2.empty; simpl. by rewrite length_map, hd_map_length. Qed.

Lemma empty_map_3_1 (f : Z → Z * Z * Z) px :
  cv2.empty (cv2.Mat8UC3 (map (map f) px)) = cv2.empty (cv2.Mat8UC1 px).
Proof. unfold cv2.empty; simpl. by rewrite length_map, hd_map_length. Qed.

Lemma empty_map_1_1 (f : Z → Z) px :
  cv2.empty (cv2.Mat8UC1 (map (map f) px)) = cv2.empty (cv2.Mat8UC1 px).
Proof. unfold cv2.empty; simpl. by rewrite length_map, hd_map_length. Qed.

Lemma length_rowFilter kx row : length (cv2.rowFilter kx row) = length row.
Proof. unfold cv2.rowFilter. by rewrite length_map, length_seq. Qed.

Lemma length_columnFilter ky img : length (cv2.columnFilter ky img) = length img.
Proof. unfold cv2.columnFilter. by rewrite length_map, length_seq. Qed.

Lemma length_hd_columnFilter ky img :
  length (hd [] (cv2.columnFilter ky img)) = length (hd [] img).
Proof.
  unfold cv2.columnFilter. destruct img as [|row img]; simpl; [done|].
  by rewrite length_map, length_seq.
Qed.

Lemma empty_sepFilter2D kx ky px :
  cv2.empty (cv2.Mat8UC1 (cv2.sepFilter2D kx ky px)) = cv2.empty (cv2.Mat8UC1 px).
Proof.
  unfold cv2.sepFilter2D. rewrite empty_map_1_1. unfold cv2.empty; simpl.
  rewrite length_columnFilter, length_hd_columnFilter, length_map.
  destruct px as [|row px]; simpl; [done|]. by rewrite length_rowFilter.
Qed.

Lemma getSobelKernel_1_5 : cv2.getSobelKernel 1 5 = sobel_kernel.
Proof. reflexivity. Qed.

Lemma grayscale_frame_color px :
  cv2.empty (cv2.Mat8UC3 px) = false →
  grayscale_frame (cv2.Mat8UC3 px) = Ok (cv2.Mat8UC1 (map (map cv2.RGB2Gray) px)).
Proof. intros H. unfold grayscale_frame, cv2.cvtColor. by rewrite H. Qed.

Lemma threshold_otsu_binary otsu g :
  cv2.empty (cv2.Mat8UC1 g) = false →
  cv2.threshold otsu (cv2.Mat8UC1 g) 0 255 (cv2.THRESH_BINARY + cv2.THRESH_OTSU)
  = Ok (otsu g, cv2.Mat8UC1 (map (map (binarize (otsu g))) g)).
Proof. intros H. unfold cv2.threshold. by rewrite H. Qed.

Lemma Sobel_1_1_5 g :
  cv2.empty (cv2.Mat8UC1 g) = false →
  cv2.Sobel (cv2.Mat8UC1 g) (-1) 1 1 5
  = Ok (cv2.Mat8UC1 (cv2.sepFilter2D sobel_kernel sobel_kernel g)).
Proof. intros H. unfold cv2.Sobel. by rewrite H. Qed.

Lemma black_and_white_frame_color otsu px :
  cv2.empty (cv2.Mat8UC3 px) = false →
  black_and_white_frame otsu (cv2.Mat8UC3 px) =
    let g := map (map cv2.RGB2Gray) px in
    Ok (cv2.Mat8UC3 (map (map cv2.Gray2RGB) (map (map (binarize (otsu g))) g))).
Proof.
  intros H. unfold black_and_white_frame, mbind, outcome_bind.
  rewrite (grayscale_frame_color px H : cv2.cvtColor _ _ = _).
  rewrite threshold_otsu_binary by (by rewrite empty_map_1_3).
  unfold cv2.cvtColor. by rewrite empty_map_1_1, empty_map_1_3, H.
Qed.

Lemma sobel_frame_color px :
  cv2.empty (cv2.Mat8UC3 px) = false →
  sobel_frame (cv2.Mat8UC3 px) =
    let g := map (map cv2.RGB2Gray) px in
    Ok (cv2.Mat8UC3 (map (map cv2.Gray2RGB)
                       (cv2.sepFilter2D sobel_kernel sobel_kernel g))).
Proof.
  intros H. unfold sobel_frame, mbind, outcome_bind.
  rewrite (grayscale_frame_color px H : cv2.cvtColor _ _ = _).
  rewrite Sobel_1_1_5 by (by rewrite empty_map_1_3).
  unfold cv2.cvtColor. by rewrite empty_sepFilter2D, empty_map_1_3, H.
Qed.

(** A single-channel frame stops every transform at its first call. *)
Lemma cvtColor_BGR2GRAY_gray px :
  ∃ e, cv2.cvtColor (cv2.Mat8UC1 px) cv2.COLOR_BGR2GRAY = Raise e.
Proof. unfold cv2.cvtColor. destruct (cv2.empty _); eauto. Qed.

Lemma transform_color otsu p f :
  cv2.empty f = false → cv2.channels f = 3%nat → ∃ out, transform otsu p f = Ok out.
Proof.
  intros He Hc. destruct f as [px|px]; [done|].
  destruct p; simpl;
    rewrite ?grayscale_frame_color, ?black_and_white_frame_color,
      ?sobel_frame_color by done; eauto.
Qed.

Lemma transform_gray otsu p f :
  cv2.channels f ≠ 3%nat → ∃ e, transform otsu p f = Raise e.
Proof.
  intros Hc. destruct f as [px|px]; [|done].
  destruct (cvtColor_BGR2GRAY_gray px) as [e He].
  exists e. destruct p; simpl;
    unfold grayscale_frame, black_and_white_frame, sobel_frame,
      mbind, outcome_bind; by rewrite He.
Qed.

Lemma transform_fuel otsu p f : transform otsu p f ≠ OutOfFuel.
Proof.
  destruct (decide (cv2.channels f = 3%nat)) as [Hc|Hc].
  - destruct (cv2.empty f) eqn:He.
    + destruct f as [px|px]; [done|].
      destruct p; simpl;
        unfold grayscale_frame, black_and_white_frame, sobel_frame,
          mbind, outcome_bind, cv2.cvtColor; by rewrite He.
    + destruct (transform_color otsu p f He Hc) as [out ->]. done.
  - destruct (transform_gray otsu p f Hc) as [e ->]. done.
Qed.

(** ** The three procedures, run from fresh local variables *)

Lemma source_frames_lookup disk input :
  source_frames disk input =
    match disk !! input with
    | Some vf => readable (cv2.file_frames vf)
    | None => []
    end.
Proof.
  unfold source_frames, cv2.VideoCapture_new. by destruct (disk !! input).
Qed.

Lemma source_property_lookup disk input prop vf :
  disk !! input = Some vf →
  source_property disk input prop =
    match prop with
    | cv2.CAP_PROP_FRAME_WIDTH => cv2.file_width vf
    | cv2.CAP_PROP_FRAME_HEIGHT => cv2.file_height vf
    | cv2.CAP_PROP_FPS => cv2.file_fps vf
    | cv2.CAP_PROP_FOURCC => cv2.file_fourcc vf
    | cv2.CAP_PROP_FRAME_COUNT => cv2.file_frame_count vf
    end.
Proof.
  intros H. unfold source_property, cv2.VideoCapture_new. by rewrite H.
Qed.

Lemma source_property_missing disk input prop :
  disk !! input = None → source_property disk input prop = 0%Q.
Proof.
  intros H. unfold source_property, cv2.VideoCapture_new. by rewrite H.
Qed.

(** Every procedure is the shared shape, instantiated with its transform
    and its writer. *)
Lemma convert_exit otsu disk p input output :
  ∃ c,
    convert otsu disk p input output
    = procedure_exit c
        (convert_frames (transform otsu p) (source_frames disk input)
           (writer_for disk p input output) 0) ∧
    cv2.vc_released c = false.
Proof.
  pose proof (live_capture_new disk input) as Hlive.
  destruct p; simpl;
    rewrite ?grayscale_prefix, ?black_and_white_prefix, ?sobel_prefix;
    (edestruct read_convert_release_spec as (c & -> & [Hrel _] & _);
     [reflexivity | exact Hlive | reflexivity | by exists c]).
Qed.

Lemma writer_for_live disk p input output :
  cv2.vw_released (writer_for disk p input output) = false.
Proof. by destruct p. Qed.

Lemma writer_for_frames disk p input output :
  cv2.vw_frames (writer_for disk p input output) = [].
Proof. by destruct p. Qed.

(** The frames written are the outputs of the transform, whatever the
    way the call ends. *)
Lemma written_convert otsu disk p input output :
  written (convert otsu disk p input output)
  = outputs (transform otsu p) (source_frames disk input).
Proof.
  destruct (convert_exit otsu disk p input output) as (c & -> & _).
  unfold procedure_exit, loop_exit, written.
  pose proof (convert_frames_writer (transform otsu p) (source_frames disk input)
                (writer_for disk p input output) 0
                (writer_for_live disk p input output)) as Hw.
  destruct (le_result _) as [[]| |]; simpl; rewrite Hw; simpl;
    by rewrite writer_for_frames.
Qed.

(** The arguments the writer was opened with survive to the exit. *)
Lemma writer_convert otsu disk p input output :
  ∃ w, new_video (snd (convert otsu disk p input output)) = Some w ∧
       cv2.vw_filename w = output ∧
       cv2.vw_fourcc w = cv2.vw_fourcc (writer_for disk p input output) ∧
       cv2.vw_fps w = cv2.vw_fps (writer_for disk p input output) ∧
       cv2.vw_frameSize w = cv2.vw_frameSize (writer_for disk p input output) ∧
       cv2.vw_isColor w = cv2.vw_isColor (writer_for disk p input output).
Proof.
  destruct (convert_exit otsu disk p input output) as (c & -> & _).
  unfold procedure_exit, loop_exit.
  pose proof (convert_frames_writer (transform otsu p) (source_frames disk input)
                (writer_for disk p input output) 0
                (writer_for_live disk p input output)) as Hw.
  destruct (le_result _) as [[]| |]; simpl; rewrite Hw; simpl;
    (eexists; split; [reflexivity|]); by destruct p.
Qed.

(** Colour frames throughout: the call returns, with both handles
    released. *)
Lemma convert_returns otsu disk p input output :
  Forall (λ f, cv2.channels f = 3%nat) (source_frames disk input) →
  let x := convert otsu disk p input output in
  fst x = Ok tt ∧ capture_released x = true ∧ writer_released x = true.
Proof.
  intros Hcol.
  assert (Forall (λ f, ∃ out, transform otsu p f = Ok out) (source_frames disk input))
    as Hok.
  { pose proof (readable_not_empty
        (cv2.vc_pending (cv2.VideoCapture_new disk input))) as Hne.
    fold (source_frames disk input) in Hne.
    rewrite Forall_forall in *. intros f Hf.
    apply transform_color; auto. }
  destruct (convert_exit otsu disk p input output) as (c & -> & _).
  unfold procedure_exit.
  by rewrite (convert_frames_ok _ _ (writer_for disk p input output) 0 Hok).
Qed.

(** A frame that is not a colour frame: the call raises, and neither
    handle has been released. *)
Lemma convert_raises otsu disk p input output :
  ¬ Forall (λ f, cv2.channels f = 3%nat) (source_frames disk input) →
  let x := convert otsu disk p input output in
  (∃ e, fst x = Raise e) ∧ capture_released x = false ∧ writer_released x = false.
Proof.
  intros Hcol.
  assert (¬ Forall (λ f, ∃ out, transform otsu p f = Ok out) (source_frames disk input))
    as Hbad.
  { intros Hok. apply Hcol. rewrite Forall_forall in *. intros f Hf.
    destruct (decide (cv2.channels f = 3%nat)) as [|Hn]; [done|].
    destruct (Hok f Hf) as [out Hout].
    destruct (transform_gray otsu p f Hn) as [e He]. congruence. }
  destruct (convert_exit otsu disk p input output) as (c & -> & Hrel).
  destruct (convert_frames_raise (transform otsu p) (source_frames disk input)
              (writer_for disk p input output) 0 (transform_fuel otsu p) Hbad)
    as [e He].
  pose proof (convert_frames_writer (transform otsu p) (source_frames disk input)
                (writer_for disk p input output) 0
                (writer_for_live disk p input output)) as Hw.
  unfold procedure_exit, loop_exit, capture_released, writer_released.
  rewrite He. simpl. rewrite Hw. simpl. eauto.
Qed.

(** The iteration budget of [while_success] is never used up. *)
Lemma while_success_total otsu disk p input output :
  fst (convert otsu disk p input output) ≠ OutOfFuel.
Proof.
  destruct (decide (Forall (λ f, cv2.channels f = 3%nat) (source_frames disk input)))
    as [Hcol|Hcol].
  - destruct (convert_returns otsu disk p input output Hcol) as [-> _]. done.
  - destruct (convert_raises otsu disk p input output Hcol) as [[e ->] _]. done.
Qed.

(** ** C1: one written frame per frame read *)

(** C1.  For an input video on which every frame the capture reads is a
    colour frame, each of the three procedures returns normally and the
    frames it wrote are, position by position and in source order, the
    transforms of the frames read: as many written as read, none
    skipped, duplicated or reordered.  When every entry of the stream
    decodes, that count is the number of frames of the input; an input
    with no frame gives an output with no frame. *)
Theorem one_written_frame_per_frame_read
    (otsu : list (list Z) → Z) (disk : gmap string cv2.VideoFile)
    (p : Conversion) (input output : string) (vf : cv2.VideoFile) :
  disk !! input = Some vf →
  Forall (λ f, cv2.channels f = 3%nat) (readable (cv2.file_frames vf)) →
  let x := convert otsu disk p input output in
  fst x = Ok tt ∧
  Forall2 (λ f out, transform otsu p f = Ok out)
    (readable (cv2.file_frames vf)) (written x) ∧
  length (written x) = length (readable (cv2.file_frames vf)) ∧
  (Forall (λ e, ∃ m, e = Some m ∧ cv2.empty m = false) (cv2.file_frames vf) →
   length (written x) = length (cv2.file_frames vf)) ∧
  (cv2.file_frames vf = [] → written x = []).
Proof.
  intros Hvf Hcol x.
  assert (source_frames disk input = readable (cv2.file_frames vf)) as Hsrc
    by (by rewrite source_frames_lookup, Hvf).
  assert (Forall2 (λ f out, transform otsu p f = Ok out)
            (readable (cv2.file_frames vf)) (written x)) as H2.
  { unfold x. rewrite written_convert, Hsrc. apply outputs_Forall2.
    pose proof (readable_not_empty (cv2.file_frames vf)) as Hne.
    rewrite Forall_forall in *. intros f Hf. apply transform_color; auto. }
  assert (length (written x) = length (readable (cv2.file_frames vf))) as Hlen
    by (symmetry; eapply Forall2_length; exact H2).
  split; [|split; [exact H2|split; [exact Hlen|split]]].
  - apply convert_returns. by rewrite Hsrc.
  - intros Hall. rewrite Hlen.
    transitivity (length (Some <$> readable (cv2.file_frames vf)));
      [by rewrite length_fmap | by rewrite readable_all].
  - intros Hnil. rewrite Hnil in Hlen. simpl in Hlen. by apply nil_length_inv.
Qed.

Lemma one_written_frame_per_frame_read_witness :
  sample_disk !! INPUT_VIDEO = Some sample_video ∧
  Forall (λ f, cv2.channels f = 3%nat) (readable (cv2.file_frames sample_video)) ∧
  let x := convert cv2.getThreshVal_Otsu_exact sample_disk SobelMap
             INPUT_VIDEO SOBEL_VIDEO in
  fst x = Ok tt ∧
  Forall2 (λ f out, transform cv2.getThreshVal_Otsu_exact SobelMap f = Ok out)
    (readable (cv2.file_frames sample_video)) (written x) ∧
  length (written x) = length (readable (cv2.file_frames sample_video)) ∧
  (Forall (λ e, ∃ m, e = Some m ∧ cv2.empty m = false)
     (cv2.file_frames sample_video) →
   length (written x) = length (cv2.file_frames sample_video)) ∧
  (cv2.file_frames sample_video = [] → written x = []).
Proof.
  split; [reflexivity|]. split; [repeat constructor|].
  apply (one_written_frame_per_frame_read cv2.getThreshVal_Otsu_exact sample_disk
           SobelMap INPUT_VIDEO SOBEL_VIDEO sample_video);
    [reflexivity | repeat constructor].
Defined.

(** ** C2: the black-and-white frames *)

Lemma elem_of_concat_map_map {A B} (f : A → B) (l : list (list A)) (y : B) :
  y ∈ concat (map (map f) l) ↔ ∃ x, y = f x ∧ x ∈ concat l.
Proof.
  rewrite <- concat_map, list_elem_of_In, in_map_iff.
  split; intros (x & H1 & H2); exists x; by rewrite ?list_elem_of_In in *.
Qed.

Lemma binarize_values t v : binarize t v = 0 ∨ binarize t v = 255.
Proof. unfold binarize. destruct (t <? v); auto. Qed.

(** Every frame a procedure wrote is the transform of a non-empty frame
    that the capture read. *)
Lemma written_from_source otsu disk p input output frame :
  frame ∈ written (convert otsu disk p input output) →
  ∃ f, f ∈ source_frames disk input ∧ cv2.empty f = false ∧
       transform otsu p f = Ok frame.
Proof.
  rewrite written_convert. intros [k Hk]%list_elem_of_lookup_1.
  destruct (outputs_lookup _ _ _ _ Hk) as (f & Hf & HT).
  exists f. split; [by eapply list_elem_of_lookup_2|split; [|done]].
  pose proof (readable_not_empty (cv2.vc_pending (cv2.VideoCapture_new disk input)))
    as Hne.
  rewrite Forall_forall in Hne. apply Hne. by eapply list_elem_of_lookup_2.
Qed.

(** C2, amended.  In every frame of the black-and-white output the three
    channels of every pixel are equal, and every value is 0 or 255.  (A
    frame need not contain both values: a uniform frame comes out
    uniform.) *)
Theorem black_and_white_frames_are_binary
    (otsu : list (list Z) → Z) (disk : gmap string cv2.VideoFile)
    (input output : string) (frame : cv2.Mat) :
  frame ∈ written (convert_video_to_black_and_white otsu disk input output unbound) →
  ∃ px, frame = cv2.Mat8UC3 px ∧
        (∀ p, p ∈ concat px → ∃ v, p = (v, v, v) ∧ (v = 0 ∨ v = 255)) ∧
        (∀ v, v ∈ pixel_values frame → v = 0 ∨ v = 255).
Proof.
  intros Hin.
  destruct (written_from_source otsu disk BlackAndWhite input output frame Hin)
    as (f & _ & Hne & HT).
  destruct f as [px|px]; simpl in HT.
  { destruct (transform_gray otsu BlackAndWhite (cv2.Mat8UC1 px)) as [e He];
      [done|]. simpl in He. congruence. }
  rewrite black_and_white_frame_color in HT by done. simpl in HT.
  injection HT as <-.
  assert (∀ p, p ∈ concat (map (map cv2.Gray2RGB)
               (map (map (binarize (otsu (map (map cv2.RGB2Gray) px))))
                  (map (map cv2.RGB2Gray) px))) →
            ∃ v, p = (v, v, v) ∧ (v = 0 ∨ v = 255)) as Hpx.
  { intros p (v & -> & (u & -> & _)%elem_of_concat_map_map)%elem_of_concat_map_map.
    eexists. split; [reflexivity|apply binarize_values]. }
  eexists. split; [reflexivity|]. split; [exact Hpx|].
  intros v. simpl. rewrite list_elem_of_In, in_concat.
  intros (l & Hl & Hv). apply in_map_iff in Hl as (p & <- & Hp).
  apply list_elem_of_In, Hpx in Hp as (u & -> & Hu).
  simpl in Hv. intuition congruence.
Qed.

Lemma black_and_white_frames_are_binary_witness :
  let x := convert_video_to_black_and_white cv2.getThreshVal_Otsu_exact
             sample_disk INPUT_VIDEO BLACK_AND_WHITE_VIDEO unbound in
  let frame := cv2.Mat8UC3 [[(0, 0, 0); (255, 255, 255); (0, 0, 0)];
                            [(255, 255, 255); (0, 0, 0); (255, 255, 255)]] in
  frame ∈ written x ∧
  ∃ px, frame = cv2.Mat8UC3 px ∧
        (∀ p, p ∈ concat px → ∃ v, p = (v, v, v) ∧ (v = 0 ∨ v = 255)) ∧
        (∀ v, v ∈ pixel_values frame → v = 0 ∨ v = 255).
Proof.
  assert (cv2.Mat8UC3 [[(0, 0, 0); (255, 255, 255); (0, 0, 0)];
                       [(255, 255, 255); (0, 0, 0); (255, 255, 255)]]
          ∈ written (convert_video_to_black_and_white cv2.getThreshVal_Otsu_exact
                       sample_disk INPUT_VIDEO BLACK_AND_WHITE_VIDEO unbound)) as Hin.
  { vm_compute. left. }
  split; [exact Hin|].
  exact (black_and_white_frames_are_binary cv2.getThreshVal_Otsu_exact sample_disk
           INPUT_VIDEO BLACK_AND_WHITE_VIDEO _ Hin).
Defined.

(** C2 as stated fails, whatever threshold the Otsu search returns: all
    pixels of a uniform frame fall on the same side of it, so the output
    frame of a black input frame holds one value, not both 0 and 255. *)
Lemma uniform_frame_stays_uniform :
  ¬ (∃ otsu : list (list Z) → Z,
       ∀ (disk : gmap string cv2.VideoFile) (input output : string)
         (frame : cv2.Mat),
         frame ∈ written (convert_video_to_black_and_white otsu disk input output
                            unbound) →
         (∃ px, frame = cv2.Mat8UC3 px ∧ ∀ p, p ∈ concat px → ∃ v, p = (v, v, v)) ∧
         (∀ v, v ∈ pixel_values frame ↔ v = 0 ∨ v = 255)).
Proof.
  intros [otsu H].
  set (c := binarize (otsu [[0; 0]; [0; 0]]) 0).
  destruct (H {[ INPUT_VIDEO := black_video ]} INPUT_VIDEO BLACK_AND_WHITE_VIDEO
              (cv2.Mat8UC3 [[(c, c, c); (c, c, c)]; [(c, c, c); (c, c, c)]]))
    as [_ Hv].
  { change (convert_video_to_black_and_white otsu {[ INPUT_VIDEO := black_video ]}
              INPUT_VIDEO BLACK_AND_WHITE_VIDEO unbound)
      with (convert otsu {[ INPUT_VIDEO := black_video ]} BlackAndWhite
              INPUT_VIDEO BLACK_AND_WHITE_VIDEO).
    rewrite written_convert.
    change (source_frames {[ INPUT_VIDEO := black_video ]} INPUT_VIDEO)
      with [black_frame].
    cbn [outputs transform]. unfold black_frame.
    rewrite black_and_white_frame_color by done.
    left. }
  assert (0 ∈ [c; c; c; c; c; c; c; c; c; c; c; c]) as H0 by (apply Hv; auto).
  assert (255 ∈ [c; c; c; c; c; c; c; c; c; c; c; c]) as H255 by (apply Hv; auto).
  apply list_elem_of_In in H0, H255. simpl in H0, H255. lia.
Qed.

(** ** C5: release of the two handles *)

(** C5 as stated fails: [cvtColor] raises on the second frame, and the
    exception leaves the procedure with both handles unreleased. *)
Lemma exception_skips_release :
  let x := convert_video_to_grayscale {[ INPUT_VIDEO := mixed_video ]}
             INPUT_VIDEO GRAYSCALE_VIDEO unbound in
  fst x = Raise (cv2_error "Invalid number of channels in input image") ∧
  length (written x) = 1%nat ∧
  capture_released x = false ∧ writer_released x = false.
Proof. vm_compute. auto. Qed.

(** C5, amended.  In every procedure, when no exception is raised in the
    loop (every frame read is a colour frame) the call returns with the
    capture and the writer both released, however many frames were
    processed; when a frame that is not a colour frame is read the call
    raises and neither handle has been released. *)
Theorem handles_released_unless_exception
    (otsu : list (list Z) → Z) (disk : gmap string cv2.VideoFile)
    (p : Conversion) (input output : string) :
  let x := convert otsu disk p input output in
  (Forall (λ f, cv2.channels f = 3%nat) (source_frames disk input) →
   fst x = Ok tt ∧ capture_released x = true ∧ writer_released x = true) ∧
  (¬ Forall (λ f, cv2.channels f = 3%nat) (source_frames disk input) →
   (∃ e, fst x = Raise e) ∧ capture_released x = false ∧ writer_released x = false).
Proof.
  split; [apply convert_returns | apply convert_raises].
Qed.

Lemma handles_released_unless_exception_witness :
  Forall (λ f, cv2.channels f = 3%nat) (source_frames sample_disk INPUT_VIDEO) ∧
  let x := convert cv2.getThreshVal_Otsu_exact sample_disk BlackAndWhite
             INPUT_VIDEO BLACK_AND_WHITE_VIDEO in
  fst x = Ok tt ∧ capture_released x = true ∧ writer_released x = true.
Proof.
  assert (Forall (λ f, cv2.channels f = 3%nat)
            (source_frames sample_disk INPUT_VIDEO)) as H
    by (repeat constructor).
  split; [exact H|].
  exact (proj1 (handles_released_unless_exception cv2.getThreshVal_Otsu_exact
                  sample_disk BlackAndWhite INPUT_VIDEO BLACK_AND_WHITE_VIDEO) H).
Defined.

(** ** A failed read and the end of the stream *)

Lemma observe_procedure_exit c1 c2 e :
  cv2.vc_released c1 = cv2.vc_released c2 →
  observe (procedure_exit c1 e) = observe (procedure_exit c2 e).
Proof.
  intros H. unfold procedure_exit, loop_exit, observe, capture_released.
  destruct (le_result e) as [[]| |]; simpl; by rewrite ?H.
Qed.

(** A stream with a failed read after [pre] and the stream that ends
    after [pre] cannot be told apart at the exit. *)
Lemma failed_read_observed_as_end
    (otsu : list (list Z) → Z) (disk : gmap string cv2.VideoFile)
    (p : Conversion) (input output : string) (vf : cv2.VideoFile)
    (pre rest : list (option cv2.Mat)) :
  observe (convert otsu (<[input := with_frames vf (pre ++ None :: rest)]> disk)
             p input output)
  = observe (convert otsu (<[input := with_frames vf pre]> disk) p input output).
Proof.
  destruct (convert_exit otsu (<[input := with_frames vf (pre ++ None :: rest)]> disk)
              p input output) as (c1 & -> & Hc1).
  destruct (convert_exit otsu (<[input := with_frames vf pre]> disk)
              p input output) as (c2 & -> & Hc2).
  rewrite !source_frames_lookup, !lookup_insert_eq. simpl.
  rewrite readable_app_None.
  replace (writer_for (<[input:=with_frames vf (pre ++ None :: rest)]> disk)
             p input output)
    with (writer_for (<[input:=with_frames vf pre]> disk) p input output).
  - apply observe_procedure_exit. congruence.
  - unfold writer_for.
    by rewrite !(source_property_lookup _ input _ _ (lookup_insert_eq _ _ _)).
Qed.

(** ** C8: each written frame depends on its own frame only *)

(** C8.  In every procedure the frame written at position [k] is the
    procedure's transform applied to the frame read at position [k], a
    function of that frame alone; so two runs (or two positions of one
    run) that meet the same frame write the same frame.  For the
    black-and-white procedure the threshold applied to frame [k] is the
    Otsu threshold of frame [k]'s own grey image. *)
Theorem written_frame_depends_on_its_frame_only
    (otsu : list (list Z) → Z) (p : Conversion) :
  (∀ disk input output k out,
     written (convert otsu disk p input output) !! k = Some out →
     ∃ f, source_frames disk input !! k = Some f ∧ transform otsu p f = Ok out) ∧
  (∀ disk1 input1 output1 k1 disk2 input2 output2 k2 f out1 out2,
     source_frames disk1 input1 !! k1 = Some f →
     source_frames disk2 input2 !! k2 = Some f →
     written (convert otsu disk1 p input1 output1) !! k1 = Some out1 →
     written (convert otsu disk2 p input2 output2) !! k2 = Some out2 →
     out1 = out2) ∧
  (∀ disk input output k out,
     written (convert_video_to_black_and_white otsu disk input output unbound) !! k
       = Some out →
     ∃ px, source_frames disk input !! k = Some (cv2.Mat8UC3 px) ∧
           let g := map (map cv2.RGB2Gray) px in
           out = cv2.Mat8UC3 (map (map cv2.Gray2RGB)
                                (map (map (binarize (otsu g))) g))).
Proof.
  assert (∀ q disk input output k out,
            written (convert otsu disk q input output) !! k = Some out →
            ∃ f, source_frames disk input !! k = Some f ∧
                 transform otsu q f = Ok out) as Hfun.
  { intros q disk input output k out. rewrite written_convert.
    apply outputs_lookup. }
  split; [apply Hfun|split].
  - intros disk1 input1 output1 k1 disk2 input2 output2 k2 f out1 out2
      Hf1 Hf2 Hw1 Hw2.
    destruct (Hfun p _ _ _ _ _ Hw1) as (f1 & Hf1' & HT1).
    destruct (Hfun p _ _ _ _ _ Hw2) as (f2 & Hf2' & HT2).
    congruence.
  - intros disk input output k out Hw.
    destruct (Hfun BlackAndWhite _ _ _ _ _ Hw) as (f & Hf & HT).
    assert (cv2.empty f = false) as Hne.
    { pose proof (readable_not_empty
          (cv2.vc_pending (cv2.VideoCapture_new disk input))) as Hall.
      rewrite Forall_forall in Hall. apply Hall.
      by eapply list_elem_of_lookup_2. }
    destruct f as [px|px]; simpl in HT.
    { destruct (transform_gray otsu BlackAndWhite (cv2.Mat8UC1 px)) as [e He];
        [done|]. simpl in He. congruence. }
    rewrite black_and_white_frame_color in HT by done.
    exists px. split; [done|]. simpl in *. congruence.
Qed.

Lemma written_frame_depends_on_its_frame_only_witness :
  let x := convert cv2.getThreshVal_Otsu_exact {[ INPUT_VIDEO := repeated_video ]}
             BlackAndWhite INPUT_VIDEO BLACK_AND_WHITE_VIDEO in
  let out := cv2.Mat8UC3 [[(0, 0, 0); (0, 0, 0); (0, 0, 0)];
                          [(255, 255, 255); (255, 255, 255); (0, 0, 0)]] in
  source_frames {[ INPUT_VIDEO := repeated_video ]} INPUT_VIDEO !! 0%nat
    = Some sample_frame_2 ∧
  source_frames {[ INPUT_VIDEO := repeated_video ]} INPUT_VIDEO !! 2%nat
    = Some sample_frame_2 ∧
  written x !! 0%nat = Some out ∧
  written x !! 2%nat = Some out ∧
  out = out.
Proof.
  split; [reflexivity|]. split; [reflexivity|].
  split; [vm_compute; reflexivity|]. split; [vm_compute; reflexivity|].
  refine (proj1 (proj2 (written_frame_depends_on_its_frame_only
                          cv2.getThreshVal_Otsu_exact BlackAndWhite))
            {[ INPUT_VIDEO := repeated_video ]} INPUT_VIDEO BLACK_AND_WHITE_VIDEO 0%nat
            {[ INPUT_VIDEO := repeated_video ]} INPUT_VIDEO BLACK_AND_WHITE_VIDEO 2%nat
            sample_frame_2 _ _ _ _ _ _);
    [reflexivity | reflexivity | vm_compute; reflexivity | vm_compute; reflexivity].
Defined.

(** ** C4: the entry point *)

Lemma main_sequence otsu disk :
  let x1 := convert otsu disk Grayscale INPUT_VIDEO GRAYSCALE_VIDEO in
  let x2 := convert otsu disk BlackAndWhite INPUT_VIDEO BLACK_AND_WHITE_VIDEO in
  let x3 := convert otsu disk SobelMap INPUT_VIDEO SOBEL_VIDEO in
  main otsu disk [] =
    match fst x1 with
    | Ok _ =>
        match fst x2 with
        | Ok _ => (fst x3, [snd x1; snd x2; snd x3])
        | r => (r, [snd x1; snd x2])
        end
    | r => (r, [snd x1])
    end.
Proof.
  intros x1 x2 x3. unfold main, mbind, ST_bind, invoke.
  fold (convert otsu disk Grayscale INPUT_VIDEO GRAYSCALE_VIDEO).
  fold (convert otsu disk BlackAndWhite INPUT_VIDEO BLACK_AND_WHITE_VIDEO).
  fold (convert otsu disk SobelMap INPUT_VIDEO SOBEL_VIDEO).
  fold x1 x2 x3.
  destruct x1 as [[[]| |] s1]; simpl; try done.
  destruct x2 as [[[]| |] s2]; simpl; try done.
  by destruct x3 as [r3 s3].
Qed.

(** C4 as stated fails: with no input file to open, [main] completes and
    the process exits 0, every writer having been opened with zeroed
    metadata. *)
Lemma unopenable_input_is_not_fatal :
  let disk : gmap string cv2.VideoFile := ∅ in
  let x := main cv2.getThreshVal_Otsu_exact disk [] in
  disk !! INPUT_VIDEO = None ∧
  exit_status (fst x) = 0 ∧
  (from_option (λ w, (cv2.vw_fourcc w, cv2.vw_fps w, cv2.vw_frameSize w)) (1, 1%Q, (1, 1))
     <$> (new_video <$> snd x))
  = [(0, 0%Q, (0, 0)); (0, 0%Q, (0, 0)); (0, 0%Q, (0, 0))].
Proof. vm_compute. auto. Qed.

Lemma convert_unopenable otsu disk p input output :
  disk !! input = None →
  zeroed_and_unused (snd (convert otsu disk p input output)).
Proof.
  intros Hnone.
  pose proof (written_convert otsu disk p input output) as Hwr.
  rewrite source_frames_lookup, Hnone in Hwr. simpl in Hwr.
  destruct (writer_convert otsu disk p input output)
    as (w & Hw & _ & Hcodec & Hfps & Hsize & _).
  exists w. unfold written in Hwr. rewrite Hw in Hwr. simpl in Hwr.
  unfold writer_for in *.
  rewrite !(source_property_missing _ _ _ Hnone) in *.
  by destruct p.
Qed.

(** C4, amended.  The entry point runs the grayscale, black-and-white
    and sobel conversions in that order.  When every frame read is a
    colour frame all three run and return, and the process exits 0.  When
    a frame is not, the first conversion raises, the exception
    propagates uncaught, the later conversions do not run and the
    process exits non-zero.  A failure to open the input is not an
    error: each conversion opens its writer with zeroed metadata, writes
    no frame, and the process exits 0. *)
Theorem main_runs_in_sequence
    (otsu : list (list Z) → Z) (disk : gmap string cv2.VideoFile) :
  let x1 := convert otsu disk Grayscale INPUT_VIDEO GRAYSCALE_VIDEO in
  let x2 := convert otsu disk BlackAndWhite INPUT_VIDEO BLACK_AND_WHITE_VIDEO in
  let x3 := convert otsu disk SobelMap INPUT_VIDEO SOBEL_VIDEO in
  (Forall (λ f, cv2.channels f = 3%nat) (source_frames disk INPUT_VIDEO) →
   main otsu disk [] = (Ok tt, [snd x1; snd x2; snd x3]) ∧
   exit_status (fst (main otsu disk [])) = 0) ∧
  (¬ Forall (λ f, cv2.channels f = 3%nat) (source_frames disk INPUT_VIDEO) →
   (∃ e, main otsu disk [] = (Raise e, [snd x1])) ∧
   exit_status (fst (main otsu disk [])) = 1) ∧
  (disk !! INPUT_VIDEO = None →
   exit_status (fst (main otsu disk [])) = 0 ∧
   length (snd (main otsu disk [])) = 3%nat ∧
   Forall zeroed_and_unused (snd (main otsu disk []))).
Proof.
  intros x1 x2 x3.
  assert (Forall (λ f, cv2.channels f = 3%nat) (source_frames disk INPUT_VIDEO) →
          main otsu disk [] = (Ok tt, [snd x1; snd x2; snd x3])) as Hgood.
  { intros Hcol. rewrite main_sequence. fold x1 x2 x3.
    destruct (convert_returns otsu disk Grayscale INPUT_VIDEO GRAYSCALE_VIDEO Hcol)
      as [H1 _].
    destruct (convert_returns otsu disk BlackAndWhite INPUT_VIDEO
                BLACK_AND_WHITE_VIDEO Hcol) as [H2 _].
    destruct (convert_returns otsu disk SobelMap INPUT_VIDEO SOBEL_VIDEO Hcol)
      as [H3 _].
    fold x1 in H1. fold x2 in H2. fold x3 in H3. by rewrite H1, H2, H3. }
  split; [|split].
  - intros Hcol. by rewrite (Hgood Hcol).
  - intros Hcol.
    destruct (convert_raises otsu disk Grayscale INPUT_VIDEO GRAYSCALE_VIDEO Hcol)
      as [[e He] _].
    rewrite main_sequence. fold x1 in He |- *. rewrite He. eauto.
  - intros Hnone.
    rewrite Hgood by (by rewrite source_frames_lookup, Hnone).
    split; [done|split; [done|]].
    repeat constructor; by apply convert_unopenable.
Qed.

Lemma main_runs_in_sequence_witness :
  Forall (λ f, cv2.channels f = 3%nat) (source_frames sample_disk INPUT_VIDEO) ∧
  main cv2.getThreshVal_Otsu_exact sample_disk [] =
    (Ok tt,
     [snd (convert cv2.getThreshVal_Otsu_exact sample_disk Grayscale
             INPUT_VIDEO GRAYSCALE_VIDEO);
      snd (convert cv2.getThreshVal_Otsu_exact sample_disk BlackAndWhite
             INPUT_VIDEO BLACK_AND_WHITE_VIDEO);
      snd (convert cv2.getThreshVal_Otsu_exact sample_disk SobelMap
             INPUT_VIDEO SOBEL_VIDEO)]) ∧
  exit_status (fst (main cv2.getThreshVal_Otsu_exact sample_disk [])) = 0.
Proof.
  assert (Forall (λ f, cv2.channels f = 3%nat)
            (source_frames sample_disk INPUT_VIDEO)) as H
    by (repeat constructor).
  split; [exact H|].
  exact (proj1 (main_runs_in_sequence cv2.getThreshVal_Otsu_exact sample_disk) H).
Defined.

(** ** C6, C9: the metadata handed to the writers *)

(** [int] rounds toward zero: it is the integer next to [q] on the side
    of zero. *)
Lemma int_truncates (q : Q) :
  ((0 <= q)%Q → 0 ≤ int q ∧ (inject_Z (int q) <= q)%Q ∧ (q < inject_Z (int q + 1))%Q) ∧
  ((q <= 0)%Q → int q ≤ 0 ∧ (q <= inject_Z (int q))%Q ∧ (inject_Z (int q - 1) < q)%Q).
Proof.
  destruct q as [n d]. unfold int, Qle, Qlt. simpl.
  pose proof (Z.quot_rem' n (Z.pos d)) as Hqr.
  split; intros Hs.
  - pose proof (Z.rem_bound_pos n (Z.pos d)) as Hb. nia.
  - pose proof (Z.rem_nonpos n (Z.pos d)) as Hb1.
    pose proof (Z.rem_bound_abs n (Z.pos d)) as Hb2. nia.
Qed.

(** C6, at an NTSC-rate input (30000/1001 frames per second): the
    grayscale writer is opened at 29 frames per second, which is not the
    input's rate; the other two writers get the input's rate.  All three
    get the input's codec tag; the first is single-channel, the other two
    are colour. *)
Theorem grayscale_writer_rate_at_ntsc_input :
  let opened x :=
    (λ w, (cv2.vw_fourcc w, cv2.vw_fps w, cv2.vw_isColor w)) <$> new_video (snd x) in
  source_property sample_disk INPUT_VIDEO cv2.CAP_PROP_FPS = 30000 # 1001 ∧
  source_property sample_disk INPUT_VIDEO cv2.CAP_PROP_FOURCC = 1196444237 # 1 ∧
  opened (convert_video_to_grayscale sample_disk INPUT_VIDEO GRAYSCALE_VIDEO unbound)
    = Some (1196444237, 29 # 1, false) ∧
  ¬ (29 # 1 == 30000 # 1001)%Q ∧
  opened (convert_video_to_black_and_white cv2.getThreshVal_Otsu_exact sample_disk
            INPUT_VIDEO BLACK_AND_WHITE_VIDEO unbound)
    = Some (1196444237, 30000 # 1001, true) ∧
  opened (convert_video_to_sobel sample_disk INPUT_VIDEO SOBEL_VIDEO unbound)
    = Some (1196444237, 30000 # 1001, true).
Proof. vm_compute. repeat split; try reflexivity. discriminate. Qed.

(** The fixed-point luminance of a pixel stays within half a grey level
    (0.505) of [0.114 b + 0.587 g + 0.299 r], and within the 8-bit
    range. *)
Lemma uchar_small v : 0 ≤ v ≤ 255 → cv2.uchar v = v.
Proof.
  intros Hv. unfold cv2.uchar. change 255 with (Z.ones 8).
  rewrite Z.land_ones by lia. apply Z.mod_small. change (2 ^ 8) with 256. lia.
Qed.

Lemma RGB2Gray_luminance b g r :
  0 ≤ b ≤ 255 → 0 ≤ g ≤ 255 → 0 ≤ r ≤ 255 →
  0 ≤ cv2.RGB2Gray (b, g, r) ≤ 255 ∧
  Z.abs (1000 * cv2.RGB2Gray (b, g, r) - (114 * b + 587 * g + 299 * r)) ≤ 505.
Proof.
  intros Hb Hg Hr.
  unfold cv2.RGB2Gray, cv2.CV_DESCALE, cv2.gray_shift, cv2.BY15, cv2.GY15, cv2.RY15.
  change (Z.shiftl 1 (15 - 1)) with 16384.
  rewrite Z.shiftr_div_pow2 by lia. change (2 ^ 15) with 32768.
  set (s := b * 3735 + g * 19235 + r * 9798 + 16384).
  pose proof (Z.div_mod s 32768 ltac:(lia)) as Hdm.
  pose proof (Z.mod_pos_bound s 32768 ltac:(lia)) as Hmb.
  assert (0 ≤ s `div` 32768 ≤ 255) as Hrng by (unfold s in *; lia).
  rewrite uchar_small by exact Hrng.
  split; [exact Hrng|]. unfold s in *. lia.
Qed.

(** Every frame the grayscale procedure wrote is the single-channel
    image of the per-pixel luminances of a colour frame it read. *)
Lemma grayscale_frames_are_luminance disk input output k out :
  written (convert_video_to_grayscale disk input output unbound) !! k = Some out →
  ∃ px, source_frames disk input !! k = Some (cv2.Mat8UC3 px) ∧
        out = cv2.Mat8UC1 (map (map cv2.RGB2Gray) px).
Proof.
  intros Hw.
  change (written (convert (λ _, 0) disk Grayscale input output) !! k = Some out)
    in Hw.
  rewrite written_convert in Hw.
  destruct (outputs_lookup _ _ _ _ Hw) as (f & Hf & HT).
  assert (cv2.empty f = false) as Hne.
  { pose proof (readable_not_empty
        (cv2.vc_pending (cv2.VideoCapture_new disk input))) as Hall.
    rewrite Forall_forall in Hall. apply Hall. by eapply list_elem_of_lookup_2. }
  destruct f as [px|px]; simpl in HT.
  { destruct (cvtColor_BGR2GRAY_gray px) as [e He].
    unfold grayscale_frame in HT. congruence. }
  rewrite grayscale_frame_color in HT by done.
  exists px. split; [done|congruence].
Qed.

(** C9, at the same NTSC-rate input: the frames written are the
    single-channel luminance images, and the sink is single-channel with
    the source's dimensions, but it is opened at 29 frames per second,
    not at the source's 30000/1001. *)
Theorem grayscale_sink_at_ntsc_input :
  let x := convert_video_to_grayscale sample_disk INPUT_VIDEO GRAYSCALE_VIDEO unbound in
  written x = [cv2.Mat8UC1 [[22; 212; 0]; [255; 54; 150]];
               cv2.Mat8UC1 [[2; 5; 8]; [81; 119; 50]]] ∧
  (source_property sample_disk INPUT_VIDEO cv2.CAP_PROP_FRAME_WIDTH,
   source_property sample_disk INPUT_VIDEO cv2.CAP_PROP_FRAME_HEIGHT,
   source_property sample_disk INPUT_VIDEO cv2.CAP_PROP_FPS)
    = (3 # 1, 2 # 1, 30000 # 1001) ∧
  ((λ w, (cv2.vw_isColor w, cv2.vw_frameSize w, cv2.vw_fps w)) <$> new_video (snd x))
    = Some (false, (3, 2), 29 # 1) ∧
  ¬ (29 # 1 == 30000 # 1001)%Q.
Proof. vm_compute. repeat split; try reflexivity. discriminate. Qed.

(** ** The Sobel filter *)

Lemma reflect101_range fuel p len :
  0 < len → 0 ≤ cv2.reflect101 fuel p len < len.
Proof.
  intros Hlen. revert p. induction fuel as [|fuel IH]; intros p; simpl;
    destruct ((0 <=? p) && (p <? len)) eqn:E; try lia; try apply IH.
Qed.

Lemma borderInterpolate_range p len :
  0 < len → 0 ≤ cv2.borderInterpolate p len < len.
Proof.
  intros Hlen. unfold cv2.borderInterpolate.
  destruct ((0 <=? p) && (p <? len)) eqn:E; [lia|].
  destruct (len =? 1); [lia|]. by apply reflect101_range.
Qed.

Lemma nth_map_seq {A} (f : nat → A) (n i : nat) (d : A) :
  (i < n)%nat → nth i (map f (seq 0 n)) d = f i.
Proof.
  intros Hi. rewrite (nth_indep _ d (f 0%nat)) by (by rewrite length_map, length_seq).
  rewrite map_nth, seq_nth by done. done.
Qed.

Lemma tap_ext k (s1 s2 : Z → Z) x :
  (∀ p, s1 p = s2 p) → cv2.tap k s1 x = cv2.tap k s2 x.
Proof.
  intros H. unfold cv2.tap. generalize (Z.of_nat (length k / 2)). intros a.
  f_equal. apply imap_ext. intros j kj _. simpl. by rewrite H.
Qed.

(** The aperture-5 kernel annihilates constants and answers a ramp of
    slope [a] with [8 a]: a first-order derivative. *)
Lemma sobel_kernel_first_derivative a b x :
  cv2.tap (cv2.getSobelKernel 1 5) (λ p, a * p + b) x = 8 * a.
Proof. rewrite getSobelKernel_1_5. unfold cv2.tap, sobel_kernel. simpl. lia. Qed.

Lemma saturate_cast_range v : 0 ≤ cv2.saturate_cast v ≤ 255.
Proof. unfold cv2.saturate_cast. lia. Qed.

(** The two 1-D passes of [sepFilter2D] with the derivative kernel
    compute, pixel by pixel, the saturated 5x5 correlation. *)
Lemma sepFilter2D_sobel_pixel img y x :
  rectangular img → (y < length img)%nat → (x < length (hd [] img))%nat →
  nth x (nth y (cv2.sepFilter2D sobel_kernel sobel_kernel img) []) 0
  = cv2.saturate_cast (correlate_5x5 sobel_kernel_5x5 img (Z.of_nat y) (Z.of_nat x)).
Proof.
  intros Hrect Hy Hx. unfold cv2.sepFilter2D.
  change (@nil Z) with (map cv2.saturate_cast []) at 1. rewrite map_nth.
  change 0 with (cv2.saturate_cast 0) at 1. rewrite map_nth. f_equal.
  unfold cv2.columnFilter. rewrite length_map.
  rewrite nth_map_seq by done.
  assert (length (hd [] (map (cv2.rowFilter sobel_kernel) img)) = length (hd [] img))
    as Hw.
  { destruct img as [|row img]; simpl; [done|]. apply length_rowFilter. }
  rewrite Hw, nth_map_seq by done.
  transitivity (cv2.tap sobel_kernel
                  (λ p, cv2.tap sobel_kernel (λ q, reflect_at img p q) (Z.of_nat x))
                  (Z.of_nat y)).
  - apply tap_ext. intros p.
    change (@nil Z) with (cv2.rowFilter sobel_kernel []) at 1. rewrite map_nth.
    pose proof (borderInterpolate_range p (Z.of_nat (length img)) ltac:(lia)) as Hr.
    set (r := Z.to_nat (cv2.borderInterpolate p (Z.of_nat (length img)))).
    assert (length (nth r img []) = length (hd [] img)) as Hlen.
    { unfold rectangular in Hrect. rewrite Forall_forall in Hrect.
      apply Hrect, list_elem_of_In, nth_In. unfold r. lia. }
    unfold cv2.rowFilter. rewrite Hlen, nth_map_seq by done.
    apply tap_ext. intros q. unfold reflect_at. by fold r.
  - unfold cv2.tap, correlate_5x5, sobel_kernel_5x5, sobel_kernel. simpl.
    change (Z.of_nat 2) with 2. ring.
Qed.

Lemma rectangular_map {A B} (f : A → B) (img : list (list A)) :
  rectangular img → rectangular (map (map f) img).
Proof.
  unfold rectangular. rewrite hd_map_length, !Forall_forall.
  intros H row [r [<- Hr]]%list_elem_of_In%in_map_iff.
  rewrite length_map. by apply H, list_elem_of_In.
Qed.

(** * Further properties of the procedures *)

(** ** The loop counter and the partial output *)

Lemma source_frames_not_empty disk input f :
  f ∈ source_frames disk input → cv2.empty f = false.
Proof.
  pose proof (readable_not_empty (cv2.vc_pending (cv2.VideoCapture_new disk input)))
    as Hall.
  rewrite Forall_forall in Hall. apply Hall.
Qed.

Lemma count_convert otsu disk p input output :
  count (snd (convert otsu disk p input output))
  = Z.of_nat (length (outputs (transform otsu p) (source_frames disk input))).
Proof.
  destruct (convert_exit otsu disk p input output) as (c & -> & _).
  unfold procedure_exit, loop_exit.
  pose proof (convert_frames_count (transform otsu p) (source_frames disk input)
                (writer_for disk p input output) 0) as Hn.
  destruct (le_result _) as [[]| |]; simpl; rewrite Hn; lia.
Qed.

(** X1.  Whatever the way a procedure ends, normally or by an exception
    in the loop, its counter [count] holds the number of frames it has
    written. *)
Theorem count_is_frames_written
    (otsu : list (list Z) → Z) (disk : gmap string cv2.VideoFile)
    (p : Conversion) (input output : string) :
  let x := convert otsu disk p input output in
  count (snd x) = Z.of_nat (length (written x)).
Proof.
  intros x. unfold x. rewrite written_convert. apply count_convert.
Qed.

Lemma colour_prefix_all fs :
  colour_prefix fs = fs ↔ Forall (λ f, cv2.channels f = 3%nat) fs.
Proof.
  induction fs as [|f fs IH]; simpl; [by split; [constructor|]|].
  destruct (cv2.channels f =? 3)%nat eqn:E.
  - apply Nat.eqb_eq in E. split.
    + intros [= H]. constructor; [done|by apply IH].
    + intros H. inversion H; subst. f_equal. by apply IH.
  - apply Nat.eqb_neq in E. split; [done|].
    intros H. by inversion H.
Qed.

Lemma outputs_colour_prefix otsu p fs :
  Forall (λ f, cv2.empty f = false) fs →
  Forall2 (λ f out, transform otsu p f = Ok out) (colour_prefix fs)
    (outputs (transform otsu p) fs).
Proof.
  induction 1 as [|f fs Hne _ IH]; simpl; [constructor|].
  destruct (cv2.channels f =? 3)%nat eqn:E.
  - apply Nat.eqb_eq in E.
    destruct (transform_color otsu p f Hne E) as [out Hout].
    rewrite Hout. by constructor.
  - apply Nat.eqb_neq in E.
    destruct (transform_gray otsu p f E) as [e He]. rewrite He. constructor.
Qed.

(** X5.  The frames a procedure has written when it ends are, position
    by position, the transforms of the frames read before the first one
    that is not a colour frame; the frames after it are neither read nor
    written.  The procedure returns normally exactly when there is no
    such frame. *)
Theorem written_is_colour_prefix
    (otsu : list (list Z) → Z) (disk : gmap string cv2.VideoFile)
    (p : Conversion) (input output : string) :
  let x := convert otsu disk p input output in
  Forall2 (λ f out, transform otsu p f = Ok out)
    (colour_prefix (source_frames disk input)) (written x) ∧
  length (written x) = length (colour_prefix (source_frames disk input)) ∧
  (fst x = Ok tt ↔
   colour_prefix (source_frames disk input) = source_frames disk input).
Proof.
  intros x.
  assert (Forall2 (λ f out, transform otsu p f = Ok out)
            (colour_prefix (source_frames disk input)) (written x)) as H2.
  { unfold x. rewrite written_convert. apply outputs_colour_prefix.
    rewrite Forall_forall. intros f. apply source_frames_not_empty. }
  split; [exact H2|]. split; [symmetry; eapply Forall2_length; exact H2|].
  rewrite colour_prefix_all. split.
  - intros Hok.
    destruct (decide (Forall (λ f, cv2.channels f = 3%nat) (source_frames disk input)))
      as [|Hbad]; [done|].
    destruct (convert_raises otsu disk p input output Hbad) as [[e He] _].
    fold x in He. congruence.
  - intros Hcol. by destruct (convert_returns otsu disk p input output Hcol).
Qed.

(** X10.  On an input path that cannot be opened, a procedure raises
    nothing: it opens its writer on the output path with codec 0, frame
    rate 0 and size 0x0, writes no frame, leaves [count] at 0, releases
    both handles and returns. *)
Theorem unopenable_input_gives_empty_output
    (otsu : list (list Z) → Z) (disk : gmap string cv2.VideoFile)
    (p : Conversion) (input output : string) :
  disk !! input = None →
  let x := convert otsu disk p input output in
  fst x = Ok tt ∧ written x = [] ∧ count (snd x) = 0 ∧
  capture_released x = true ∧ writer_released x = true ∧
  (λ w, (cv2.vw_filename w, cv2.vw_fourcc w, cv2.vw_fps w, cv2.vw_frameSize w))
    <$> new_video (snd x) = Some (output, 0, 0%Q, (0, 0)).
Proof.
  intros Hnone x.
  assert (source_frames disk input = []) as Hsrc
    by (by rewrite source_frames_lookup, Hnone).
  assert (written x = []) as Hw by (unfold x; by rewrite written_convert, Hsrc).
  destruct (convert_returns otsu disk p input output) as (Hr & Hc & Hwr);
    [rewrite Hsrc; constructor|].
  split; [exact Hr|]. split; [exact Hw|].
  split; [unfold x; by rewrite count_convert, Hsrc|].
  split; [exact Hc|]. split; [exact Hwr|].
  destruct (writer_convert otsu disk p input output)
    as (w & Hnv & Hname & Hcodec & Hfps & Hsize & _).
  unfold x. rewrite Hnv. simpl. rewrite Hname, Hcodec, Hfps, Hsize.
  unfold writer_for. rewrite !(source_property_missing _ _ _ Hnone).
  by destruct p.
Qed.

Lemma unopenable_input_gives_empty_output_witness :
  (∅ : gmap string cv2.VideoFile) !! "missing.avi" = None ∧
  let x := convert cv2.getThreshVal_Otsu_exact ∅ SobelMap "missing.avi" "out.avi" in
  fst x = Ok tt ∧ written x = [] ∧ count (snd x) = 0 ∧
  capture_released x = true ∧ writer_released x = true ∧
  (λ w, (cv2.vw_filename w, cv2.vw_fourcc w, cv2.vw_fps w, cv2.vw_frameSize w))
    <$> new_video (snd x) = Some ("out.avi", 0, 0%Q, (0, 0)).
Proof.
  split; [reflexivity|].
  apply (unopenable_input_gives_empty_output cv2.getThreshVal_Otsu_exact ∅ SobelMap
           "missing.avi" "out.avi"). reflexivity.
Defined.

(** ** The shape and the content of the written frames *)

(** Every written frame comes from a non-empty colour frame read at the
    same position, by the pixel rules of [converted]. *)
Lemma written_explicit otsu disk p input output k out :
  written (convert otsu disk p input output) !! k = Some out →
  ∃ px, source_frames disk input !! k = Some (cv2.Mat8UC3 px) ∧
        cv2.empty (cv2.Mat8UC3 px) = false ∧
        out = converted otsu p px.
Proof.
  rewrite written_convert. intros Hw.
  destruct (outputs_lookup _ _ _ _ Hw) as (f & Hf & HT).
  assert (cv2.empty f = false) as Hne
    by (eapply source_frames_not_empty, list_elem_of_lookup_2; exact Hf).
  destruct f as [px|px].
  { destruct (transform_gray otsu p (cv2.Mat8UC1 px)) as [e He]; [done|].
    congruence. }
  exists px. split; [done|]. split; [done|].
  destruct p; cbn [transform] in HT;
    rewrite ?grayscale_frame_color, ?black_and_white_frame_color,
      ?sobel_frame_color in HT by done;
    cbv zeta in HT; injection HT as <-; reflexivity.
Qed.

Lemma length_sepFilter2D kx ky g :
  length (cv2.sepFilter2D kx ky g) = length g.
Proof.
  unfold cv2.sepFilter2D. by rewrite length_map, length_columnFilter, length_map.
Qed.

Lemma length_hd_sepFilter2D kx ky g :
  length (hd [] (cv2.sepFilter2D kx ky g)) = length (hd [] g).
Proof.
  unfold cv2.sepFilter2D. rewrite hd_map_length, length_hd_columnFilter.
  destruct g as [|row g]; simpl; [done|]. apply length_rowFilter.
Qed.

(** X3.  Every frame a procedure writes has the height and the width of
    the frame read at the same position, and the channel count its
    writer was opened for: one channel for the grayscale writer (opened
    with [isColor] 0), three for the other two (opened as colour). *)
Theorem written_frames_keep_size_and_fit_writer
    (otsu : list (list Z) → Z) (disk : gmap string cv2.VideoFile)
    (p : Conversion) (input output : string) (k : nat) (out : cv2.Mat) :
  let x := convert otsu disk p input output in
  written x !! k = Some out →
  ∃ f, source_frames disk input !! k = Some f ∧
       cv2.rows out = cv2.rows f ∧ cv2.cols out = cv2.cols f ∧
       cv2.channels out = output_channels p ∧
       cv2.vw_isColor <$> new_video (snd x) = Some (cv2.channels out =? 3)%nat.
Proof.
  intros x Hw.
  destruct (written_explicit otsu disk p input output k out Hw)
    as (px & Hf & _ & ->).
  exists (cv2.Mat8UC3 px). split; [exact Hf|].
  destruct (writer_convert otsu disk p input output)
    as (w & Hnv & _ & _ & _ & _ & Hcol).
  unfold x. rewrite Hnv. simpl. rewrite Hcol.
  destruct p; simpl;
    rewrite ?length_map, ?hd_map_length, ?length_sepFilter2D,
      ?length_hd_sepFilter2D, ?length_map, ?hd_map_length; done.
Qed.

Lemma written_frames_keep_size_and_fit_writer_witness :
  let x := convert cv2.getThreshVal_Otsu_exact {[ INPUT_VIDEO := corner_video ]}
             SobelMap INPUT_VIDEO SOBEL_VIDEO in
  written x !! 0%nat = Some corner_edges ∧
  ∃ f, source_frames {[ INPUT_VIDEO := corner_video ]} INPUT_VIDEO !! 0%nat = Some f ∧
       cv2.rows corner_edges = cv2.rows f ∧ cv2.cols corner_edges = cv2.cols f ∧
       cv2.channels corner_edges = output_channels SobelMap ∧
       cv2.vw_isColor <$> new_video (snd x)
         = Some (cv2.channels corner_edges =? 3)%nat.
Proof.
  assert (written (convert cv2.getThreshVal_Otsu_exact {[ INPUT_VIDEO := corner_video ]}
                     SobelMap INPUT_VIDEO SOBEL_VIDEO) !! 0%nat = Some corner_edges)
    as H by (vm_compute; reflexivity).
  split; [exact H|].
  exact (written_frames_keep_size_and_fit_writer cv2.getThreshVal_Otsu_exact
           {[ INPUT_VIDEO := corner_video ]} SobelMap INPUT_VIDEO SOBEL_VIDEO
           0 corner_edges H).
Defined.

Lemma Forall2_map_self {A B} (P : A → B → Prop) (f : A → B) (l : list A) :
  (∀ a, P a (f a)) → Forall2 P l (map f l).
Proof. intros H. induction l; simpl; constructor; auto. Qed.

(** X6.  Every pixel of every frame the grayscale procedure writes is
    the luminance of the pixel at the same place of the frame read at
    the same position: for channel values within 0..255 it lies within
    0..255 and within 0.505 of 0.114 B + 0.587 G + 0.299 R. *)
Theorem grayscale_pixels_are_luminance
    (disk : gmap string cv2.VideoFile) (input output : string)
    (k : nat) (out : cv2.Mat) :
  written (convert_video_to_grayscale disk input output unbound) !! k = Some out →
  ∃ px gpx,
    source_frames disk input !! k = Some (cv2.Mat8UC3 px) ∧
    out = cv2.Mat8UC1 gpx ∧
    Forall2 (Forall2 (λ '(b, g, r) v,
               0 ≤ b ≤ 255 → 0 ≤ g ≤ 255 → 0 ≤ r ≤ 255 →
               0 ≤ v ≤ 255 ∧
               Z.abs (1000 * v - (114 * b + 587 * g + 299 * r)) ≤ 505))
      px gpx.
Proof.
  intros Hw.
  destruct (written_explicit (λ _, 0) disk Grayscale input output k out Hw)
    as (px & Hf & _ & ->).
  exists px, (map (map cv2.RGB2Gray) px). split; [exact Hf|]. split; [done|].
  apply Forall2_map_self. intros row. apply Forall2_map_self.
  intros [[b g] r] Hb Hg Hr. by apply RGB2Gray_luminance.
Qed.

Lemma grayscale_pixels_are_luminance_witness :
  written (convert_video_to_grayscale sample_disk INPUT_VIDEO GRAYSCALE_VIDEO unbound)
    !! 1%nat = Some (cv2.Mat8UC1 [[2; 5; 8]; [81; 119; 50]]) ∧
  ∃ px gpx,
    source_frames sample_disk INPUT_VIDEO !! 1%nat = Some (cv2.Mat8UC3 px) ∧
    cv2.Mat8UC1 [[2; 5; 8]; [81; 119; 50]] = cv2.Mat8UC1 gpx ∧
    Forall2 (Forall2 (λ '(b, g, r) v,
               0 ≤ b ≤ 255 → 0 ≤ g ≤ 255 → 0 ≤ r ≤ 255 →
               0 ≤ v ≤ 255 ∧
               Z.abs (1000 * v - (114 * b + 587 * g + 299 * r)) ≤ 505))
      px gpx.
Proof.
  assert (written (convert_video_to_grayscale sample_disk INPUT_VIDEO GRAYSCALE_VIDEO
                     unbound) !! 1%nat = Some (cv2.Mat8UC1 [[2; 5; 8]; [81; 119; 50]]))
    as H by (vm_compute; reflexivity).
  split; [exact H|].
  exact (grayscale_pixels_are_luminance sample_disk INPUT_VIDEO GRAYSCALE_VIDEO 1 _ H).
Defined.

(** X9.  On one input, the frame the black-and-white procedure writes at
    a position is the frame the grayscale procedure writes there, put
    through [threshold] with the Otsu flag and [cvtColor] to three
    channels; and the frame the sobel procedure writes there is that
    grayscale frame put through [Sobel] and the same [cvtColor]. *)
Theorem colour_outputs_derive_from_grayscale_output
    (otsu : list (list Z) → Z) (disk : gmap string cv2.VideoFile)
    (input out_g out_b out_s : string) (k : nat) (gray : cv2.Mat) :
  written (convert_video_to_grayscale disk input out_g unbound) !! k = Some gray →
  (∀ bw,
     written (convert_video_to_black_and_white otsu disk input out_b unbound) !! k
       = Some bw →
     ∃ t binary,
       cv2.threshold otsu gray 0 255 (cv2.THRESH_BINARY + cv2.THRESH_OTSU)
         = Ok (t, binary) ∧
       cv2.cvtColor binary cv2.COLOR_GRAY2RGB = Ok bw) ∧
  (∀ sobel,
     written (convert_video_to_sobel disk input out_s unbound) !! k = Some sobel →
     ∃ edges,
       cv2.Sobel gray (-1) 1 1 5 = Ok edges ∧
       cv2.cvtColor edges cv2.COLOR_GRAY2RGB = Ok sobel).
Proof.
  intros Hg.
  destruct (written_explicit otsu disk Grayscale input out_g k gray Hg)
    as (px & Hf & Hne & ->).
  assert (cv2.empty (cv2.Mat8UC1 (map (map cv2.RGB2Gray) px)) = false) as Hne1
    by (by rewrite empty_map_1_3).
  split.
  - intros bw Hb.
    destruct (written_explicit otsu disk BlackAndWhite input out_b k bw Hb)
      as (px' & Hf' & _ & ->).
    assert (px' = px) as -> by congruence.
    simpl. rewrite threshold_otsu_binary by done.
    eexists _, _. split; [reflexivity|].
    unfold cv2.cvtColor. by rewrite empty_map_1_1, Hne1.
  - intros sobel Hs.
    destruct (written_explicit otsu disk SobelMap input out_s k sobel Hs)
      as (px' & Hf' & _ & ->).
    assert (px' = px) as -> by congruence.
    simpl. rewrite Sobel_1_1_5 by done.
    eexists. split; [reflexivity|].
    unfold cv2.cvtColor. by rewrite empty_sepFilter2D, Hne1.
Qed.

Lemma colour_outputs_derive_from_grayscale_output_witness :
  written (convert_video_to_grayscale sample_disk INPUT_VIDEO GRAYSCALE_VIDEO unbound)
    !! 1%nat = Some (cv2.Mat8UC1 [[2; 5; 8]; [81; 119; 50]]) ∧
  written (convert_video_to_black_and_white cv2.getThreshVal_Otsu_exact sample_disk
             INPUT_VIDEO BLACK_AND_WHITE_VIDEO unbound) !! 1%nat
    = Some (cv2.Mat8UC3 [[(0, 0, 0); (0, 0, 0); (0, 0, 0)];
                         [(255, 255, 255); (255, 255, 255); (0, 0, 0)]]) ∧
  ∃ t binary,
    cv2.threshold cv2.getThreshVal_Otsu_exact (cv2.Mat8UC1 [[2; 5; 8]; [81; 119; 50]])
      0 255 (cv2.THRESH_BINARY + cv2.THRESH_OTSU) = Ok (t, binary) ∧
    cv2.cvtColor binary cv2.COLOR_GRAY2RGB
      = Ok (cv2.Mat8UC3 [[(0, 0, 0); (0, 0, 0); (0, 0, 0)];
                         [(255, 255, 255); (255, 255, 255); (0, 0, 0)]]).
Proof.
  assert (written (convert_video_to_grayscale sample_disk INPUT_VIDEO GRAYSCALE_VIDEO
                     unbound) !! 1%nat = Some (cv2.Mat8UC1 [[2; 5; 8]; [81; 119; 50]]))
    as Hg by (vm_compute; reflexivity).
  assert (written (convert_video_to_black_and_white cv2.getThreshVal_Otsu_exact
                     sample_disk INPUT_VIDEO BLACK_AND_WHITE_VIDEO unbound) !! 1%nat
          = Some (cv2.Mat8UC3 [[(0, 0, 0); (0, 0, 0); (0, 0, 0)];
                               [(255, 255, 255); (255, 255, 255); (0, 0, 0)]]))
    as Hb by (vm_compute; reflexivity).
  split; [exact Hg|]. split; [exact Hb|].
  exact (proj1 (colour_outputs_derive_from_grayscale_output
                  cv2.getThreshVal_Otsu_exact sample_disk INPUT_VIDEO GRAYSCALE_VIDEO
                  BLACK_AND_WHITE_VIDEO SOBEL_VIDEO 1 _ Hg) _ Hb).
Defined.

(** ** The metadata when it is integral *)

Lemma int_integral (q : Q) (z : Z) : (q == inject_Z z)%Q → int q = z.
Proof.
  destruct q as [n d]. unfold Qeq, int. simpl. intros H.
  replace n with (z * Z.pos d) by lia. apply Z.quot_mul. lia.
Qed.

(** X7.  When the source reports an integral codec tag, frame rate,
    width and height, every procedure opens its writer on the output
    path with exactly that codec tag and frame size and with the
    source's frame rate: the [int] conversions lose nothing, for the
    grayscale writer too. *)
Theorem integral_metadata_reaches_the_writer
    (otsu : list (list Z) → Z) (disk : gmap string cv2.VideoFile)
    (p : Conversion) (input output : string) (vf : cv2.VideoFile)
    (codec rate width height : Z) :
  disk !! input = Some vf →
  (cv2.file_fourcc vf == inject_Z codec)%Q →
  (cv2.file_fps vf == inject_Z rate)%Q →
  (cv2.file_width vf == inject_Z width)%Q →
  (cv2.file_height vf == inject_Z height)%Q →
  ∃ w, new_video (snd (convert otsu disk p input output)) = Some w ∧
       cv2.vw_filename w = output ∧ cv2.vw_fourcc w = codec ∧
       cv2.vw_frameSize w = (width, height) ∧
       (cv2.vw_fps w == cv2.file_fps vf)%Q.
Proof.
  intros Hvf Hc Hr Hw Hh.
  destruct (writer_convert otsu disk p input output)
    as (w & Hnv & Hname & Hcodec & Hfps & Hsize & _).
  exists w. split; [exact Hnv|]. split; [exact Hname|].
  rewrite Hcodec, Hsize, Hfps. unfold writer_for.
  rewrite !(source_property_lookup _ _ _ _ Hvf).
  rewrite (int_integral _ _ Hc), (int_integral _ _ Hw), (int_integral _ _ Hh).
  destruct p; simpl; repeat split; try reflexivity.
  rewrite (int_integral _ _ Hr). by symmetry.
Qed.

Lemma integral_metadata_reaches_the_writer_witness :
  ({[ INPUT_VIDEO := corner_video ]} : gmap string cv2.VideoFile) !! INPUT_VIDEO
    = Some corner_video ∧
  (cv2.file_fourcc corner_video == inject_Z 1196444237)%Q ∧
  (cv2.file_fps corner_video == inject_Z 25)%Q ∧
  (cv2.file_width corner_video == inject_Z 6)%Q ∧
  (cv2.file_height corner_video == inject_Z 6)%Q ∧
  ∃ w, new_video (snd (convert cv2.getThreshVal_Otsu_exact
                         {[ INPUT_VIDEO := corner_video ]} Grayscale
                         INPUT_VIDEO GRAYSCALE_VIDEO)) = Some w ∧
       cv2.vw_filename w = GRAYSCALE_VIDEO ∧ cv2.vw_fourcc w = 1196444237 ∧
       cv2.vw_frameSize w = (6, 6) ∧
       (cv2.vw_fps w == cv2.file_fps corner_video)%Q.
Proof.
  repeat (split; [reflexivity|]).
  apply (integral_metadata_reaches_the_writer cv2.getThreshVal_Otsu_exact
           {[ INPUT_VIDEO := corner_video ]} Grayscale INPUT_VIDEO GRAYSCALE_VIDEO
           corner_video 1196444237 25 6 6); reflexivity.
Defined.

(** ** The file names of [main] *)

(** X2.  The writers [main] opens are opened, in call order, on the
    grayscale, the black-and-white and the sobel file name (as far as
    [main] gets), and these three names and the input name are pairwise
    different: no writer is opened on the input or on another writer's
    file. *)
Theorem main_writes_beside_the_input
    (otsu : list (list Z) → Z) (disk : gmap string cv2.VideoFile) :
  writer_names (snd (main otsu disk []))
    `prefix_of` [Some GRAYSCALE_VIDEO; Some BLACK_AND_WHITE_VIDEO; Some SOBEL_VIDEO] ∧
  NoDup [INPUT_VIDEO; GRAYSCALE_VIDEO; BLACK_AND_WHITE_VIDEO; SOBEL_VIDEO].
Proof.
  split; [|by apply (bool_decide_unpack _)].
  rewrite main_sequence.
  destruct (writer_convert otsu disk Grayscale INPUT_VIDEO GRAYSCALE_VIDEO)
    as (w1 & H1 & N1 & _).
  destruct (writer_convert otsu disk BlackAndWhite INPUT_VIDEO BLACK_AND_WHITE_VIDEO)
    as (w2 & H2 & N2 & _).
  destruct (writer_convert otsu disk SobelMap INPUT_VIDEO SOBEL_VIDEO)
    as (w3 & H3 & N3 & _).
  simpl in H1, H2, H3.
  destruct (fst (convert otsu disk Grayscale _ _)) as [[]| |];
    [destruct (fst (convert otsu disk BlackAndWhite _ _)) as [[]| |]| |];
    unfold writer_names; simpl; rewrite ?H1, ?H2, ?H3; simpl;
    rewrite ?N1, ?N2, ?N3.
  - by exists [].
  - by exists [Some SOBEL_VIDEO].
  - by exists [Some SOBEL_VIDEO].
  - by exists [Some BLACK_AND_WHITE_VIDEO; Some SOBEL_VIDEO].
  - by exists [Some BLACK_AND_WHITE_VIDEO; Some SOBEL_VIDEO].
Qed.

(** ** The sobel frame of a frame without edges *)

Lemma nth_elem_of_concat (g : list (list Z)) (r q : nat) :
  (r < length g)%nat → (q < length (nth r g []))%nat →
  nth q (nth r g []) 0 ∈ concat g.
Proof.
  intros Hr Hq. apply list_elem_of_In, in_concat.
  exists (nth r g []). split; by apply nth_In.
Qed.

Lemma elem_of_concat_nth (s : list (list Z)) (v : Z) :
  v ∈ concat s →
  ∃ y x, (y < length s)%nat ∧ (x < length (nth y s []))%nat ∧
         v = nth x (nth y s []) 0.
Proof.
  intros (row & Hrow & Hv)%list_elem_of_In%in_concat.
  destruct (In_nth _ _ [] Hrow) as (y & Hy & <-).
  destruct (In_nth _ _ 0 Hv) as (x & Hx & <-).
  by exists y, x.
Qed.

Lemma length_nth_sepFilter2D kx ky g y :
  (y < length g)%nat →
  length (nth y (cv2.sepFilter2D kx ky g) []) = length (hd [] g).
Proof.
  intros Hy. unfold cv2.sepFilter2D.
  change (@nil Z) with (map cv2.saturate_cast []) at 1.
  rewrite map_nth, length_map. unfold cv2.columnFilter.
  rewrite length_map, nth_map_seq by done.
  rewrite length_map, length_seq.
  destruct g as [|row g]; simpl; [done|]. apply length_rowFilter.
Qed.

Lemma reflect_at_uniform (g : list (list Z)) (c y x : Z) :
  rectangular g → (0 < length g)%nat → (0 < length (hd [] g))%nat →
  (∀ v, v ∈ concat g → v = c) →
  reflect_at g y x = c.
Proof.
  intros Hrect Hh Hw Hc. apply Hc. unfold reflect_at.
  pose proof (borderInterpolate_range y (Z.of_nat (length g)) ltac:(lia)) as Hy.
  pose proof (borderInterpolate_range x (Z.of_nat (length (hd [] g))) ltac:(lia)) as Hx.
  set (r := Z.to_nat (cv2.borderInterpolate y (Z.of_nat (length g)))) in *.
  assert (length (nth r g []) = length (hd [] g)) as Hlen.
  { unfold rectangular in Hrect. rewrite Forall_forall in Hrect.
    apply Hrect, list_elem_of_In, nth_In. unfold r. lia. }
  apply nth_elem_of_concat; [unfold r; lia | rewrite Hlen; lia].
Qed.

(** X8.  A frame whose pixels all have the same luminance has no edge:
    the frame the sobel procedure writes for it is black, borders
    included. *)
Theorem sobel_of_uniform_frame_is_black
    (disk : gmap string cv2.VideoFile) (input output : string) (k : nat)
    (out : cv2.Mat) (px : list (list (Z * Z * Z))) (c : Z) :
  written (convert_video_to_sobel disk input output unbound) !! k = Some out →
  source_frames disk input !! k = Some (cv2.Mat8UC3 px) →
  rectangular px →
  (∀ q, q ∈ concat px → cv2.RGB2Gray q = c) →
  ∃ opx, out = cv2.Mat8UC3 opx ∧
         length opx = length px ∧
         ∀ q, q ∈ concat opx → q = (0, 0, 0).
Proof.
  intros Hw Hf Hrect Hc.
  destruct (written_explicit (λ _, 0) disk SobelMap input output k out Hw)
    as (px' & Hf' & Hne & ->).
  assert (px' = px) as -> by congruence.
  set (g := map (map cv2.RGB2Gray) px).
  assert (rectangular g) as Hrg by (by apply rectangular_map).
  assert (∀ v, v ∈ concat g → v = c) as Hcg.
  { intros v (q & -> & Hq)%elem_of_concat_map_map. by apply Hc. }
  assert ((0 < length g)%nat ∧ (0 < length (hd [] g))%nat) as [Hh Hwd].
  { unfold g. rewrite length_map, hd_map_length.
    unfold cv2.empty in Hne. simpl in Hne.
    apply orb_false_elim in Hne as [H1%Nat.eqb_neq H2%Nat.eqb_neq]. lia. }
  eexists. split; [reflexivity|].
  split; [by rewrite length_map, length_sepFilter2D, length_map|].
  intros q (v & -> & Hv)%elem_of_concat_map_map.
  destruct (elem_of_concat_nth _ _ Hv) as (y & x & Hy & Hx & ->).
  rewrite length_sepFilter2D in Hy.
  rewrite length_nth_sepFilter2D in Hx by done.
  fold g in Hy, Hx |- *.
  rewrite sepFilter2D_sobel_pixel by done.
  unfold correlate_5x5, sobel_kernel_5x5, sobel_kernel. simpl.
  rewrite !(reflect_at_uniform g c) by done.
  replace (_ + _) with 0 by ring. reflexivity.
Qed.

Lemma sobel_of_uniform_frame_is_black_witness :
  let px := let c := (40, 80, 120) in [[c; c; c]; [c; c; c]; [c; c; c]] in
  let out := let d := (0, 0, 0) in cv2.Mat8UC3 [[d; d; d]; [d; d; d]; [d; d; d]] in
  written (convert_video_to_sobel {[ INPUT_VIDEO := uniform_video ]} INPUT_VIDEO
             SOBEL_VIDEO unbound) !! 0%nat = Some out ∧
  source_frames {[ INPUT_VIDEO := uniform_video ]} INPUT_VIDEO !! 0%nat
    = Some (cv2.Mat8UC3 px) ∧
  rectangular px ∧
  (∀ q, q ∈ concat px → cv2.RGB2Gray q = 87) ∧
  ∃ opx, out = cv2.Mat8UC3 opx ∧ length opx = length px ∧
         ∀ q, q ∈ concat opx → q = (0, 0, 0).
Proof.
  intros px out.
  assert (written (convert_video_to_sobel {[ INPUT_VIDEO := uniform_video ]}
                     INPUT_VIDEO SOBEL_VIDEO unbound) !! 0%nat = Some out)
    as H1 by (vm_compute; reflexivity).
  assert (source_frames {[ INPUT_VIDEO := uniform_video ]} INPUT_VIDEO !! 0%nat
          = Some (cv2.Mat8UC3 px)) as H2 by reflexivity.
  assert (rectangular px) as H3 by (repeat constructor).
  assert (∀ q, q ∈ concat px → cv2.RGB2Gray q = 87) as H4.
  { intros q Hq. apply list_elem_of_In in Hq. unfold px in Hq. simpl in Hq.
    repeat (destruct Hq as [<-|Hq]; [reflexivity|]). destruct Hq. }
  split; [exact H1|]. split; [exact H2|]. split; [exact H3|]. split; [exact H4|].
  exact (sobel_of_uniform_frame_is_black {[ INPUT_VIDEO := uniform_video ]}
           INPUT_VIDEO SOBEL_VIDEO 0 out px 87 H1 H2 H3 H4).
Defined.

(** ** A frame that fails to decode *)

Lemma readable_decoded frames :
  Forall (λ f, cv2.empty f = false) frames → readable (Some <$> frames) = frames.
Proof.
  induction 1 as [|f fs Hne _ IH]; [done|].
  rewrite fmap_cons. simpl. by rewrite Hne, IH.
Qed.

(** X11.  A frame that fails to decode cuts the output short without
    any error: when the colour frames [frames] are followed by a failed
    read, the procedure writes the transforms of [frames], returns
    normally with both handles released, and whatever the file holds
    after the failed frame is never written. *)
Theorem decode_failure_truncates_output
    (otsu : list (list Z) → Z) (disk : gmap string cv2.VideoFile)
    (p : Conversion) (input output : string) (vf : cv2.VideoFile)
    (frames : list cv2.Mat) (rest : list (option cv2.Mat)) :
  disk !! input = Some vf →
  cv2.file_frames vf = (Some <$> frames) ++ None :: rest →
  Forall (λ f, cv2.empty f = false ∧ cv2.channels f = 3%nat) frames →
  let x := convert otsu disk p input output in
  fst x = Ok tt ∧
  Forall2 (λ f out, transform otsu p f = Ok out) frames (written x) ∧
  length (written x) = length frames ∧
  capture_released x = true ∧ writer_released x = true.
Proof.
  intros Hvf Hfr Hall x.
  assert (source_frames disk input = frames) as Hsrc.
  { rewrite source_frames_lookup, Hvf, Hfr, readable_app_None.
    apply readable_decoded. eapply Forall_impl; [exact Hall|]. by intros f [? _]. }
  assert (Forall (λ f, cv2.channels f = 3%nat) (source_frames disk input)) as Hcol.
  { rewrite Hsrc. eapply Forall_impl; [exact Hall|]. by intros f [_ ?]. }
  destruct (convert_returns otsu disk p input output Hcol) as (Hr & Hc & Hw).
  assert (Forall2 (λ f out, transform otsu p f = Ok out) frames (written x)) as H2.
  { unfold x. rewrite written_convert, Hsrc. apply outputs_Forall2.
    eapply Forall_impl; [exact Hall|]. intros f [? ?]. by apply transform_color. }
  split; [exact Hr|]. split; [exact H2|].
  split; [symmetry; eapply Forall2_length; exact H2|]. by split.
Qed.

Lemma decode_failure_truncates_output_witness :
  let vf := with_frames sample_video
              [Some sample_frame_1; None; Some sample_frame_2] in
  let x := convert cv2.getThreshVal_Otsu_exact {[ INPUT_VIDEO := vf ]} Grayscale
             INPUT_VIDEO GRAYSCALE_VIDEO in
  ({[ INPUT_VIDEO := vf ]} : gmap string cv2.VideoFile) !! INPUT_VIDEO = Some vf ∧
  cv2.file_frames vf = (Some <$> [sample_frame_1]) ++ None :: [Some sample_frame_2] ∧
  Forall (λ f, cv2.empty f = false ∧ cv2.channels f = 3%nat) [sample_frame_1] ∧
  fst x = Ok tt ∧
  Forall2 (λ f out, transform cv2.getThreshVal_Otsu_exact Grayscale f = Ok out)
    [sample_frame_1] (written x) ∧
  length (written x) = length [sample_frame_1] ∧
  capture_released x = true ∧ writer_released x = true.
Proof.
  intros vf x.
  assert (Forall (λ f, cv2.empty f = false ∧ cv2.channels f = 3%nat)
            [sample_frame_1]) as H by (repeat constructor).
  split; [reflexivity|]. split; [reflexivity|]. split; [exact H|].
  exact (decode_failure_truncates_output cv2.getThreshVal_Otsu_exact
           {[ INPUT_VIDEO := vf ]} Grayscale INPUT_VIDEO GRAYSCALE_VIDEO vf
           [sample_frame_1] [Some sample_frame_2] eq_refl eq_refl H).
Defined.

(** * The failed read, the parameter probe and the sobel frames *)

(** ** C7: a failed read stops the loop and the procedure closes *)

Lemma convert_returns_stopped otsu disk p input output :
  Forall (λ f, cv2.channels f = 3%nat) (source_frames disk input) →
  success (snd (convert otsu disk p input output)) = false ∧
  image (snd (convert otsu disk p input output)) = None.
Proof.
  intros Hcol.
  assert (Forall (λ f, ∃ out, transform otsu p f = Ok out) (source_frames disk input))
    as Hok.
  { rewrite Forall_forall in *. intros f Hf.
    apply transform_color; [by eapply source_frames_not_empty | auto]. }
  destruct (convert_exit otsu disk p input output) as (c & -> & _).
  unfold procedure_exit.
  by rewrite (convert_frames_ok _ _ (writer_for disk p input output) 0 Hok).
Qed.

(** C7.  In every procedure a read that fails in mid-stream is taken
    for the end of the stream.  A stream with a frame that fails to
    decode after [pre], whatever follows it, and the stream that ends
    after [pre] leave the same result, the same writer with the same
    frames, the same loop variables and the same release of the
    capture.  And when colour frames are followed by a failed read, the
    loop stops there ([success] false, no image), no exception is
    raised, exactly the frames before the failure have been written,
    and the procedure goes on to release the capture and the writer and
    returns. *)
Theorem read_failure_is_end_of_stream
    (otsu : list (list Z) → Z) (disk : gmap string cv2.VideoFile)
    (p : Conversion) (input output : string) (vf : cv2.VideoFile) :
  (∀ pre rest : list (option cv2.Mat),
     observe (convert otsu (<[input := with_frames vf (pre ++ None :: rest)]> disk)
                p input output)
     = observe (convert otsu (<[input := with_frames vf pre]> disk) p input output)) ∧
  (∀ (frames : list cv2.Mat) (rest : list (option cv2.Mat)),
     Forall (λ f, cv2.empty f = false ∧ cv2.channels f = 3%nat) frames →
     let x := convert otsu
                (<[input := with_frames vf ((Some <$> frames) ++ None :: rest)]> disk)
                p input output in
     fst x = Ok tt ∧
     success (snd x) = false ∧ image (snd x) = None ∧
     Forall2 (λ f out, transform otsu p f = Ok out) frames (written x) ∧
     count (snd x) = Z.of_nat (length frames) ∧
     capture_released x = true ∧ writer_released x = true).
Proof.
  split; [intros pre rest; apply failed_read_observed_as_end|].
  intros frames rest Hall x.
  set (disk' := <[input := with_frames vf ((Some <$> frames) ++ None :: rest)]> disk)
    in *.
  assert (source_frames disk' input = frames) as Hsrc.
  { unfold disk'. rewrite source_frames_lookup, lookup_insert_eq. simpl.
    rewrite readable_app_None. apply readable_decoded.
    eapply Forall_impl; [exact Hall|]. by intros f [? _]. }
  assert (Forall (λ f, cv2.channels f = 3%nat) (source_frames disk' input)) as Hcol.
  { rewrite Hsrc. eapply Forall_impl; [exact Hall|]. by intros f [_ ?]. }
  destruct (convert_returns otsu disk' p input output Hcol) as (Hr & Hc & Hw).
  destruct (convert_returns_stopped otsu disk' p input output Hcol) as (Hs & Hi).
  assert (Forall2 (λ f out, transform otsu p f = Ok out) frames (written x)) as H2.
  { unfold x. rewrite written_convert, Hsrc. apply outputs_Forall2.
    eapply Forall_impl; [exact Hall|]. intros f [? ?]. by apply transform_color. }
  split; [exact Hr|]. split; [exact Hs|]. split; [exact Hi|]. split; [exact H2|].
  split; [|by split].
  unfold x. rewrite count_convert, Hsrc.
  f_equal. unfold x in H2. rewrite written_convert, Hsrc in H2.
  symmetry. eapply Forall2_length. exact H2.
Qed.

Lemma read_failure_is_end_of_stream_witness :
  let x := convert cv2.getThreshVal_Otsu_exact
             (<[INPUT_VIDEO := with_frames sample_video
                  ((Some <$> [sample_frame_1; sample_frame_2])
                   ++ None :: [Some sample_frame_1])]> ∅)
             BlackAndWhite INPUT_VIDEO BLACK_AND_WHITE_VIDEO in
  Forall (λ f, cv2.empty f = false ∧ cv2.channels f = 3%nat)
    [sample_frame_1; sample_frame_2] ∧
  fst x = Ok tt ∧
  success (snd x) = false ∧ image (snd x) = None ∧
  Forall2 (λ f out, transform cv2.getThreshVal_Otsu_exact BlackAndWhite f = Ok out)
    [sample_frame_1; sample_frame_2] (written x) ∧
  count (snd x) = Z.of_nat (length [sample_frame_1; sample_frame_2]) ∧
  capture_released x = true ∧ writer_released x = true.
Proof.
  intros x.
  assert (Forall (λ f, cv2.empty f = false ∧ cv2.channels f = 3%nat)
            [sample_frame_1; sample_frame_2]) as H by (repeat constructor).
  split; [exact H|].
  exact (proj2 (read_failure_is_end_of_stream cv2.getThreshVal_Otsu_exact ∅
                  BlackAndWhite INPUT_VIDEO BLACK_AND_WHITE_VIDEO sample_video)
           [sample_frame_1; sample_frame_2] [Some sample_frame_1] H).
Defined.

(** ** C10: the parameter probe *)

Lemma get_video_parameters_any_finite get fourcc fps height width :
  get cv2.CAP_PROP_FOURCC = Finite fourcc →
  get cv2.CAP_PROP_FPS = Finite fps →
  get cv2.CAP_PROP_FRAME_HEIGHT = Finite height →
  get cv2.CAP_PROP_FRAME_WIDTH = Finite width →
  get_video_parameters_any get =
    Ok ({[ "fourcc" := PyInt (int fourcc); "fps" := PyInt (int fps);
           "height" := PyInt (int height); "width" := PyInt (int width) ]}
        : gmap string pyval).
Proof.
  intros H1 H2 H3 H4. unfold get_video_parameters_any. by rewrite H1, H2, H3, H4.
Qed.

(** C10 as stated fails: handed a capture whose frame rate comes out
    infinite, [get_video_parameters] raises at [int] and returns no
    dictionary. *)
Lemma infinite_rate_makes_the_probe_raise :
  get_video_parameters_any infinite_rate_probe
  = Raise (OverflowError "cannot convert float infinity to integer") ∧
  get_video_parameters_any
    (λ prop, match prop with
             | cv2.CAP_PROP_FRAME_WIDTH => NaN
             | _ => ntsc_probe prop
             end)
  = Raise (ValueError "cannot convert float NaN to integer").
Proof. split; reflexivity. Qed.

(** C10, amended.  Handed a capture whose codec, frame rate, height and
    width are finite numbers, [get_video_parameters] returns a
    dictionary with exactly the keys "fourcc", "fps", "height" and
    "width", each bound to the integer truncation (toward zero) of the
    corresponding property; the frame count is not consulted.  It raises
    exactly when one of those four properties is infinite or a NaN.  On
    the captures of the procedures the grayscale writer is therefore
    opened with the truncated frame rate, while the black-and-white and
    sobel procedures probe the capture themselves and open their writers
    with the frame rate as reported. *)
Theorem get_video_parameters_truncates_finite_properties
    (otsu : list (list Z) → Z) (disk : gmap string cv2.VideoFile)
    (input output : string) :
  (∀ get fourcc fps height width,
     get cv2.CAP_PROP_FOURCC = Finite fourcc →
     get cv2.CAP_PROP_FPS = Finite fps →
     get cv2.CAP_PROP_FRAME_HEIGHT = Finite height →
     get cv2.CAP_PROP_FRAME_WIDTH = Finite width →
     ∃ parameters : gmap string pyval,
       get_video_parameters_any get = Ok parameters ∧
       dom parameters = {[ "fourcc"; "fps"; "height"; "width" ]} ∧
       parameters !! "fourcc" = Some (PyInt (int fourcc)) ∧
       parameters !! "fps" = Some (PyInt (int fps)) ∧
       parameters !! "height" = Some (PyInt (int height)) ∧
       parameters !! "width" = Some (PyInt (int width))) ∧
  (∀ get,
     (∃ e, get_video_parameters_any get = Raise e) ↔
     (∃ prop, prop ∈ [cv2.CAP_PROP_FOURCC; cv2.CAP_PROP_FPS;
                      cv2.CAP_PROP_FRAME_HEIGHT; cv2.CAP_PROP_FRAME_WIDTH] ∧
              ∀ q, get prop ≠ Finite q)) ∧
  (∀ capture,
     get_video_parameters_any (λ prop, Finite (cv2.VideoCapture_get capture prop))
     = Ok (get_video_parameters capture)) ∧
  (∀ q : Q,
     ((0 <= q)%Q → 0 ≤ int q ∧ (inject_Z (int q) <= q)%Q ∧ (q < inject_Z (int q + 1))%Q) ∧
     ((q <= 0)%Q → int q ≤ 0 ∧ (q <= inject_Z (int q))%Q ∧ (inject_Z (int q - 1) < q)%Q)) ∧
  (cv2.vw_fps <$> new_video (snd (convert_video_to_grayscale disk input output unbound))
   = Some (inject_Z (int (source_property disk input cv2.CAP_PROP_FPS)))) ∧
  (cv2.vw_fps <$> new_video (snd (convert_video_to_black_and_white otsu disk input
                                    output unbound))
   = Some (source_property disk input cv2.CAP_PROP_FPS)) ∧
  (cv2.vw_fps <$> new_video (snd (convert_video_to_sobel disk input output unbound))
   = Some (source_property disk input cv2.CAP_PROP_FPS)).
Proof.
  split; [|split; [|split; [|split; [exact int_truncates|]]]].
  - intros get fourcc fps height width H1 H2 H3 H4.
    rewrite (get_video_parameters_any_finite get _ _ _ _ H1 H2 H3 H4).
    eexists. split; [reflexivity|]. split; [set_solver|]. by repeat split.
  - intros get. unfold get_video_parameters_any, mbind, outcome_bind. split.
    + intros [e He].
      destruct (get cv2.CAP_PROP_FOURCC) eqn:E1;
        [|exists cv2.CAP_PROP_FOURCC; split; [set_solver|congruence]..].
      destruct (get cv2.CAP_PROP_FPS) eqn:E2;
        [|exists cv2.CAP_PROP_FPS; split; [set_solver|congruence]..].
      destruct (get cv2.CAP_PROP_FRAME_HEIGHT) eqn:E3;
        [|exists cv2.CAP_PROP_FRAME_HEIGHT; split; [set_solver|congruence]..].
      destruct (get cv2.CAP_PROP_FRAME_WIDTH) eqn:E4;
        [|exists cv2.CAP_PROP_FRAME_WIDTH; split; [set_solver|congruence]..].
      simpl in He. discriminate.
    + intros (prop & Hin & Hnf).
      destruct (get cv2.CAP_PROP_FOURCC) eqn:E1; simpl; [|by eauto..].
      destruct (get cv2.CAP_PROP_FPS) eqn:E2; simpl; [|by eauto..].
      destruct (get cv2.CAP_PROP_FRAME_HEIGHT) eqn:E3; simpl; [|by eauto..].
      destruct (get cv2.CAP_PROP_FRAME_WIDTH) eqn:E4; simpl; [|by eauto..].
      exfalso. apply list_elem_of_In in Hin. simpl in Hin.
      destruct Hin as [<-|[<-|[<-|[<-|[]]]]]; eapply Hnf; eassumption.
  - intros capture. reflexivity.
  - destruct (writer_convert otsu disk Grayscale input output)
      as (w1 & Hw1 & _ & _ & Hf1 & _).
    destruct (writer_convert otsu disk BlackAndWhite input output)
      as (w2 & Hw2 & _ & _ & Hf2 & _).
    destruct (writer_convert otsu disk SobelMap input output)
      as (w3 & Hw3 & _ & _ & Hf3 & _).
    simpl in Hw1, Hw2, Hw3. rewrite Hw1, Hw2, Hw3. simpl.
    by rewrite Hf1, Hf2, Hf3.
Qed.

Lemma get_video_parameters_truncates_finite_properties_witness :
  get_video_parameters_any ntsc_probe
  = Ok ({[ "fourcc" := PyInt 1196444237; "fps" := PyInt 29;
           "height" := PyInt 2; "width" := PyInt 3 ]} : gmap string pyval) ∧
  ntsc_probe cv2.CAP_PROP_FOURCC = Finite 1196444237 ∧
  ntsc_probe cv2.CAP_PROP_FPS = Finite (30000 # 1001) ∧
  ntsc_probe cv2.CAP_PROP_FRAME_HEIGHT = Finite 2 ∧
  ntsc_probe cv2.CAP_PROP_FRAME_WIDTH = Finite 3 ∧
  ∃ parameters : gmap string pyval,
    get_video_parameters_any ntsc_probe = Ok parameters ∧
    dom parameters = {[ "fourcc"; "fps"; "height"; "width" ]} ∧
    parameters !! "fourcc" = Some (PyInt (int 1196444237)) ∧
    parameters !! "fps" = Some (PyInt (int (30000 # 1001))) ∧
    parameters !! "height" = Some (PyInt (int 2)) ∧
    parameters !! "width" = Some (PyInt (int 3)).
Proof.
  split; [vm_compute; reflexivity|].
  repeat (split; [reflexivity|]).
  exact (proj1 (get_video_parameters_truncates_finite_properties
                  cv2.getThreshVal_Otsu_exact sample_disk INPUT_VIDEO GRAYSCALE_VIDEO)
           ntsc_probe _ _ _ _ eq_refl eq_refl eq_refl eq_refl).
Defined.

(** ** C3: the sobel frames, pixel by pixel *)

Lemma reflect101_inside fuel p len :
  0 ≤ p < len → cv2.reflect101 fuel p len = p.
Proof.
  intros Hp. assert ((0 <=? p) && (p <? len) = true) as E by lia.
  destruct fuel; simpl; by rewrite E.
Qed.

Lemma borderInterpolate_reflects p len :
  3 ≤ len → -2 ≤ p ≤ len + 1 → cv2.borderInterpolate p len = reflect_101 p len.
Proof.
  intros Hlen Hp. unfold cv2.borderInterpolate, reflect_101.
  destruct ((0 <=? p) && (p <? len)) eqn:E.
  { destruct (p <? 0) eqn:E1; [lia|]. destruct (len <=? p) eqn:E2; [lia|done]. }
  destruct (len =? 1) eqn:E1; [lia|].
  destruct (Z.to_nat (Z.abs p + len)) as [|fuel] eqn:Ef; [lia|].
  simpl. rewrite E.
  destruct (p <? 0) eqn:E2.
  - rewrite reflect101_inside by lia. lia.
  - destruct (len <=? p) eqn:E3; [|lia]. rewrite reflect101_inside by lia. lia.
Qed.

Lemma saturate_cast_clamps raw :
  (raw ≤ 0 → cv2.saturate_cast raw = 0) ∧
  (0 ≤ raw ≤ 255 → cv2.saturate_cast raw = raw) ∧
  (255 ≤ raw → cv2.saturate_cast raw = 255).
Proof. unfold cv2.saturate_cast. lia. Qed.

(** The 5x5 correlation written out: the derivative along the columns of
    the derivative along the rows. *)
Lemma correlate_5x5_mixed_derivative g y x :
  correlate_5x5 sobel_kernel_5x5 g y x
  = let I dy dx := reflect_at g (y + dy) (x + dx) in
    let d dy := - I dy (-2) - 2 * I dy (-1) + 2 * I dy 1 + I dy 2 in
    - d (-2) - 2 * d (-1) + 2 * d 1 + d 2.
Proof.
  unfold correlate_5x5, sobel_kernel_5x5, sobel_kernel. cbv zeta. simpl.
  change (Z.of_nat 0) with 0. change (Z.of_nat 1) with 1. change (Z.of_nat 2) with 2.
  change (Z.of_nat 3) with 3. change (Z.of_nat 4) with 4.
  replace (y + 0 - 2) with (y + -2) by lia. replace (y + 1 - 2) with (y + -1) by lia.
  replace (y + 3 - 2) with (y + 1) by lia. replace (y + 4 - 2) with (y + 2) by lia.
  replace (x + 0 - 2) with (x + -2) by lia. replace (x + 1 - 2) with (x + -1) by lia.
  replace (x + 3 - 2) with (x + 1) by lia. replace (x + 4 - 2) with (x + 2) by lia.
  ring.
Qed.

Lemma reflect_at_rows_equal (g : list (list Z)) (y y' x : Z) :
  (0 < length g)%nat → (∀ row, row ∈ g → row = hd [] g) →
  reflect_at g y x = reflect_at g y' x.
Proof.
  intros Hh Heq. unfold reflect_at.
  pose proof (borderInterpolate_range y (Z.of_nat (length g)) ltac:(lia)) as Hy.
  pose proof (borderInterpolate_range y' (Z.of_nat (length g)) ltac:(lia)) as Hy'.
  rewrite (Heq (nth (Z.to_nat (cv2.borderInterpolate y (Z.of_nat (length g)))) g []))
    by (apply list_elem_of_In, nth_In; lia).
  rewrite (Heq (nth (Z.to_nat (cv2.borderInterpolate y' (Z.of_nat (length g)))) g []))
    by (apply list_elem_of_In, nth_In; lia).
  reflexivity.
Qed.

Lemma reflect_at_row_constant (g : list (list Z)) (y x x' : Z) :
  rectangular g → (0 < length g)%nat → (0 < length (hd [] g))%nat →
  (∀ row v, row ∈ g → v ∈ row → v = hd 0 row) →
  reflect_at g y x = reflect_at g y x'.
Proof.
  intros Hrect Hh Hw Hc. unfold reflect_at.
  pose proof (borderInterpolate_range y (Z.of_nat (length g)) ltac:(lia)) as Hy.
  pose proof (borderInterpolate_range x (Z.of_nat (length (hd [] g))) ltac:(lia)) as Hx.
  pose proof (borderInterpolate_range x' (Z.of_nat (length (hd [] g))) ltac:(lia))
    as Hx'.
  set (row := nth (Z.to_nat (cv2.borderInterpolate y (Z.of_nat (length g)))) g []).
  assert (row ∈ g) as Hrow by (apply list_elem_of_In, nth_In; lia).
  assert (length row = length (hd [] g)) as Hlen.
  { unfold rectangular in Hrect. rewrite Forall_forall in Hrect. by apply Hrect. }
  rewrite (Hc row (nth (Z.to_nat (cv2.borderInterpolate x _)) row 0) Hrow)
    by (apply list_elem_of_In, nth_In; lia).
  rewrite (Hc row (nth (Z.to_nat (cv2.borderInterpolate x' _)) row 0) Hrow)
    by (apply list_elem_of_In, nth_In; lia).
  reflexivity.
Qed.

Lemma sepFilter2D_sobel_zero (g : list (list Z)) :
  rectangular g →
  (∀ y x, correlate_5x5 sobel_kernel_5x5 g y x = 0) →
  ∀ v, v ∈ concat (cv2.sepFilter2D sobel_kernel sobel_kernel g) → v = 0.
Proof.
  intros Hrect Hz v Hv.
  destruct (elem_of_concat_nth _ _ Hv) as (y & x & Hy & Hx & ->).
  rewrite length_sepFilter2D in Hy.
  rewrite length_nth_sepFilter2D in Hx by done.
  rewrite sepFilter2D_sobel_pixel, Hz by done. reflexivity.
Qed.

Lemma sepFilter2D_range kx ky (g : list (list Z)) :
  Forall (Forall (λ v, 0 ≤ v ≤ 255)) (cv2.sepFilter2D kx ky g).
Proof.
  unfold cv2.sepFilter2D. rewrite Forall_forall.
  intros row (r & <- & _)%list_elem_of_In%in_map_iff.
  rewrite Forall_forall. intros v (u & <- & _)%list_elem_of_In%in_map_iff.
  apply saturate_cast_range.
Qed.

Lemma Forall2_map_on {A B} (P : A → B → Prop) (f : A → B) (l : list A) :
  Forall (λ a, P a (f a)) l → Forall2 P l (map f l).
Proof. induction 1; simpl; constructor; auto. Qed.

(** C3 as stated fails on its purpose: the filter takes the derivative
    along the columns of the derivative along the rows, which vanishes
    along a straight edge.  A frame that is black on the left and white
    on the right, with luminance stepping from 0 to 255, is written as
    an entirely black frame. *)
Lemma straight_edge_gives_black_sobel_frame :
  source_frames {[ INPUT_VIDEO := edge_video ]} INPUT_VIDEO = [edge_frame] ∧
  cv2.cvtColor edge_frame cv2.COLOR_BGR2GRAY
  = Ok (cv2.Mat8UC1 (repeat [0; 0; 0; 255; 255; 255] 6)) ∧
  written (convert_video_to_sobel {[ INPUT_VIDEO := edge_video ]} INPUT_VIDEO
             SOBEL_VIDEO unbound)
  = [cv2.Mat8UC3 (repeat (repeat (0, 0, 0) 6) 6)].
Proof. vm_compute. auto. Qed.

(** C3, amended.  Every frame the sobel procedure writes comes from the
    colour frame read at the same position, in three steps.  The frame
    is converted to single-channel luminance: each value lies within
    0.505 of 0.114 B + 0.587 G + 0.299 R.  [Sobel] is applied with
    aperture 5 and derivative order 1 along both axes: its 1-D kernel is
    [-1; -2; 0; 2; 1], a first-order derivative (zero on constants,
    [8 a] on a ramp of slope [a]); each output pixel is the derivative
    along the columns of the derivative along the rows, taken over the
    5x5 neighbourhood with positions outside the image reflected about
    the border pixel, and stored clamped to 0..255 (a negative response
    becomes 0, a response above 255 becomes 255) rather than as a signed
    value.  This mixed derivative is not an edge magnitude: it is zero
    wherever the luminance is the same in every row, or constant along
    every row.  Finally the single channel is replicated into three
    equal channels. *)
Theorem sobel_frames_are_clamped_mixed_derivatives
    (disk : gmap string cv2.VideoFile) (input output : string)
    (k : nat) (out : cv2.Mat) :
  written (convert_video_to_sobel disk input output unbound) !! k = Some out →
  ∃ (px : list (list (Z * Z * Z))) (g s : list (list Z))
    (opx : list (list (Z * Z * Z))),
    source_frames disk input !! k = Some (cv2.Mat8UC3 px) ∧
    cv2.cvtColor (cv2.Mat8UC3 px) cv2.COLOR_BGR2GRAY = Ok (cv2.Mat8UC1 g) ∧
    Forall2 (Forall2 (λ '(b, g, r) v,
               0 ≤ b ≤ 255 → 0 ≤ g ≤ 255 → 0 ≤ r ≤ 255 →
               0 ≤ v ≤ 255 ∧
               Z.abs (1000 * v - (114 * b + 587 * g + 299 * r)) ≤ 505))
      px g ∧
    cv2.getSobelKernel 1 5 = [-1; -2; 0; 2; 1] ∧
    (∀ a b x, cv2.tap (cv2.getSobelKernel 1 5) (λ p, a * p + b) x = 8 * a) ∧
    cv2.Sobel (cv2.Mat8UC1 g) (-1) 1 1 5 = Ok (cv2.Mat8UC1 s) ∧
    length s = length px ∧
    (rectangular px →
     ∀ y x : nat, (y < length px)%nat → (x < length (hd [] px))%nat →
       let I dy dx := reflect_at g (Z.of_nat y + dy) (Z.of_nat x + dx) in
       let d dy := - I dy (-2) - 2 * I dy (-1) + 2 * I dy 1 + I dy 2 in
       let raw := - d (-2) - 2 * d (-1) + 2 * d 1 + d 2 in
       let v := nth x (nth y s []) 0 in
       length (nth y s []) = length (hd [] px) ∧
       (raw ≤ 0 → v = 0) ∧ (0 ≤ raw ≤ 255 → v = raw) ∧ (255 ≤ raw → v = 255)) ∧
    (∀ p len, 3 ≤ len → -2 ≤ p ≤ len + 1 →
       cv2.borderInterpolate p len = reflect_101 p len) ∧
    (rectangular px → (∀ row, row ∈ g → row = hd [] g) →
     ∀ v, v ∈ concat s → v = 0) ∧
    (rectangular px → (∀ row v, row ∈ g → v ∈ row → v = hd 0 row) →
     ∀ v, v ∈ concat s → v = 0) ∧
    out = cv2.Mat8UC3 opx ∧
    Forall2 (Forall2 (λ v q, q = (v, v, v) ∧ 0 ≤ v ≤ 255)) s opx.
Proof.
  intros Hw.
  destruct (written_explicit (λ _, 0) disk SobelMap input output k out Hw)
    as (px & Hf & Hne & ->).
  set (g := map (map cv2.RGB2Gray) px).
  set (s := cv2.sepFilter2D sobel_kernel sobel_kernel g).
  exists px, g, s, (map (map cv2.Gray2RGB) s).
  assert ((0 < length g)%nat ∧ (0 < length (hd [] g))%nat) as [Hh Hwd].
  { unfold g. rewrite length_map, hd_map_length.
    unfold cv2.empty in Hne. simpl in Hne.
    apply orb_false_elim in Hne as [H1%Nat.eqb_neq H2%Nat.eqb_neq]. lia. }
  split; [exact Hf|].
  split; [by apply (grayscale_frame_color px)|].
  split.
  { apply Forall2_map_self. intros row. apply Forall2_map_self.
    intros [[b g0] r] Hb Hg Hr. by apply RGB2Gray_luminance. }
  split; [apply getSobelKernel_1_5|].
  split; [apply sobel_kernel_first_derivative|].
  split; [apply Sobel_1_1_5; unfold g; by rewrite empty_map_1_3|].
  split; [unfold s, g; by rewrite length_sepFilter2D, length_map|].
  split.
  { intros Hrect y x Hy Hx. cbv beta zeta.
    assert (rectangular g) as Hrg by (by apply rectangular_map).
    assert ((y < length g)%nat ∧ (x < length (hd [] g))%nat) as [Hy' Hx']
      by (unfold g; by rewrite length_map, hd_map_length).
    split.
    { unfold s. rewrite length_nth_sepFilter2D by done.
      unfold g. by rewrite hd_map_length. }
    unfold s. rewrite sepFilter2D_sobel_pixel by done.
    rewrite correlate_5x5_mixed_derivative. cbv beta zeta.
    apply saturate_cast_clamps. }
  split; [exact borderInterpolate_reflects|].
  split.
  { intros Hrect Heq. apply (sepFilter2D_sobel_zero g); [by apply rectangular_map|].
    intros y x. rewrite correlate_5x5_mixed_derivative. cbv beta zeta.
    rewrite !(reflect_at_rows_equal g (y + _) y) by done. ring. }
  split.
  { intros Hrect Hc. apply (sepFilter2D_sobel_zero g); [by apply rectangular_map|].
    assert (rectangular g) as Hrg by (by apply rectangular_map).
    intros y x. rewrite correlate_5x5_mixed_derivative. cbv beta zeta.
    rewrite !(reflect_at_row_constant g _ (x + _) x) by done. ring. }
  split; [reflexivity|].
  apply Forall2_map_on. eapply Forall_impl; [apply sepFilter2D_range|].
  intros row Hrow. apply Forall2_map_on. eapply Forall_impl; [exact Hrow|].
  intros v Hv. by split.
Qed.

Lemma sobel_frames_are_clamped_mixed_derivatives_witness :
  (let g := let d := 22 in let w := 207 in
            [[d; d; d; d; d; d; d; d]; [d; d; d; d; d; d; d; d];
             [d; d; d; d; d; d; d; d]; [d; d; d; w; w; w; d; d];
             [d; d; d; w; w; w; d; d]; [d; d; d; w; w; w; d; d]] in
   cv2.cvtColor patch_frame cv2.COLOR_BGR2GRAY = Ok (cv2.Mat8UC1 g) ∧
   map (λ x, correlate_5x5 sobel_kernel_5x5 g 1 x) [0; 1; 2; 3; 4; 5; 6; 7]
   = [0; 185; 555; 555; 0; -555; -555; 0] ∧
   map (λ x, correlate_5x5 sobel_kernel_5x5 g 2 x) [0; 1; 2; 3; 4; 5; 6; 7]
   = [0; 555; 1665; 1665; 0; -1665; -1665; 0]) ∧
  written (convert_video_to_sobel {[ INPUT_VIDEO := patch_video ]}
             INPUT_VIDEO SOBEL_VIDEO unbound) !! 0%nat = Some patch_edges ∧
  ∃ (px : list (list (Z * Z * Z))) (g s : list (list Z))
    (opx : list (list (Z * Z * Z))),
    source_frames {[ INPUT_VIDEO := patch_video ]} INPUT_VIDEO !! 0%nat
      = Some (cv2.Mat8UC3 px) ∧
    cv2.cvtColor (cv2.Mat8UC3 px) cv2.COLOR_BGR2GRAY = Ok (cv2.Mat8UC1 g) ∧
    Forall2 (Forall2 (λ '(b, g, r) v,
               0 ≤ b ≤ 255 → 0 ≤ g ≤ 255 → 0 ≤ r ≤ 255 →
               0 ≤ v ≤ 255 ∧
               Z.abs (1000 * v - (114 * b + 587 * g + 299 * r)) ≤ 505))
      px g ∧
    cv2.getSobelKernel 1 5 = [-1; -2; 0; 2; 1] ∧
    (∀ a b x, cv2.tap (cv2.getSobelKernel 1 5) (λ p, a * p + b) x = 8 * a) ∧
    cv2.Sobel (cv2.Mat8UC1 g) (-1) 1 1 5 = Ok (cv2.Mat8UC1 s) ∧
    length s = length px ∧
    (rectangular px →
     ∀ y x : nat, (y < length px)%nat → (x < length (hd [] px))%nat →
       let I dy dx := reflect_at g (Z.of_nat y + dy) (Z.of_nat x + dx) in
       let d dy := - I dy (-2) - 2 * I dy (-1) + 2 * I dy 1 + I dy 2 in
       let raw := - d (-2) - 2 * d (-1) + 2 * d 1 + d 2 in
       let v := nth x (nth y s []) 0 in
       length (nth y s []) = length (hd [] px) ∧
       (raw ≤ 0 → v = 0) ∧ (0 ≤ raw ≤ 255 → v = raw) ∧ (255 ≤ raw → v = 255)) ∧
    (∀ p len, 3 ≤ len → -2 ≤ p ≤ len + 1 →
       cv2.borderInterpolate p len = reflect_101 p len) ∧
    (rectangular px → (∀ row, row ∈ g → row = hd [] g) →
     ∀ v, v ∈ concat s → v = 0) ∧
    (rectangular px → (∀ row v, row ∈ g → v ∈ row → v = hd 0 row) →
     ∀ v, v ∈ concat s → v = 0) ∧
    patch_edges = cv2.Mat8UC3 opx ∧
    Forall2 (Forall2 (λ v q, q = (v, v, v) ∧ 0 ≤ v ≤ 255)) s opx.
Proof.
  assert (written (convert_video_to_sobel {[ INPUT_VIDEO := patch_video ]}
                     INPUT_VIDEO SOBEL_VIDEO unbound) !! 0%nat = Some patch_edges)
    as H by (vm_compute; reflexivity).
  split; [vm_compute; auto|].
  split; [exact H|].
  exact (sobel_frames_are_clamped_mixed_derivatives {[ INPUT_VIDEO := patch_video ]}
           INPUT_VIDEO SOBEL_VIDEO 0 patch_edges H).
Defined.
